(** * SnackSprint ordering backend: the request handlers of [main.py]

    A shallow embedding of the FastAPI handlers ([seed_demo_data],
    [list_restaurants], [list_menu], [create_order], [test_database]) with
    the document store they talk to, and the properties of the service
    stated over it.

    Python values are embedded as the handlers see them: dictionaries are
    finite maps from strings, floats are binary64 numbers, integers are
    unbounded, and an exception is a value that short-circuits the rest of
    a [try] block. *)

From Stdlib Require Import ZArith NArith String Ascii List Floats HexString.
From stdpp Require Import base option list gmap strings.

Set Warnings "-inexact-float,-register-all".
Local Open Scope string_scope.
Local Open Scope Z_scope.

(** ** Python values *)

(** The values that occur in fixtures, payloads and stored documents.
    [VOid] is a store-assigned identity (an [ObjectId]). *)
Inductive value : Type :=
  | VNone
  | VBool (b : bool)
  | VInt (z : Z)
  | VFloat (f : float)
  | VStr (s : string)
  | VOid (o : N)
  | VList (l : list value)
  | VDict (d : gmap string value).

(** A document is a Python [dict] with string keys. *)
Abbreviation document := (gmap string value).

#[global] Instance value_inhabited : Inhabited value := populate VNone.

(** ** Exceptions *)

(** An exception instance: its class and what [str(e)] gives. *)
Record exn : Type := Exn { exn_class : string; exn_str : string }.

Inductive result (A : Type) : Type :=
  | Ok (a : A)
  | Raise (e : exn).
Arguments Ok {A} a.
Arguments Raise {A} e.

#[global] Instance result_ret : MRet result := fun _ a => Ok a.
#[global] Instance result_bind : MBind result := fun _ _ f m =>
  match m with
  | Ok a => f a
  | Raise e => Raise e
  end.

(** [[f(x) for x in l]], stopping at the first element that raises. *)
Fixpoint for_each {A B : Type} (f : A -> result B) (l : list A) : result (list B) :=
  match l with
  | [] => Ok []
  | x :: l' => y ← f x; ys ← for_each f l'; Ok (y :: ys)
  end.

(** [d[k]]: [KeyError] when the key is missing; [str] of a [KeyError] is
    the [repr] of the key. *)
Definition KeyError (k : string) : exn := Exn "KeyError" ("'" ++ k ++ "'").

Definition getitem (d : document) (k : string) : result value :=
  match d !! k with
  | Some v => Ok v
  | None => Raise (KeyError k)
  end.

(** [d.pop(k)]: the value and the dictionary without the key. *)
Definition pop (d : document) (k : string) : result (value * document) :=
  match d !! k with
  | Some v => Ok (v, delete k d)
  | None => Raise (KeyError k)
  end.

(** [d.pop(k, None)]: never raises; only the dictionary matters here. *)
Definition pop_default (d : document) (k : string) : document := delete k d.

(** ** Numbers *)

(** [float(n)] for an [int]: the nearest binary64 (ties to even);
    [OverflowError] when that is not finite. Also what [int * float]
    does to its left operand. *)
Definition OverflowError : exn :=
  Exn "OverflowError" "int too large to convert to float".

Definition int_to_float (n : Z) : result float :=
  match binary_normalize prec emax n 0 false with
  | S754_infinity _ => Raise OverflowError
  | sf => Ok (SF2Prim sf)
  end.

(** [n * x] for an [int] [n] and a [float] [x]. *)
Definition int_mul_float (n : Z) (x : float) : result float :=
  f ← int_to_float n; Ok (f * x)%float.

(** The nearest integer to [n / 2^k], ties to even ([0 <= n], [0 < k]). *)
Definition div_pow2_half_even (n k : Z) : Z :=
  let q := Z.shiftr n k in
  let r := n - Z.shiftl q k in
  match r ?= Z.shiftl 1 (k - 1) with
  | Lt => q
  | Gt => q + 1
  | Eq => if Z.even q then q else q + 1
  end.

(** [round(x, 2)] for a float: the exact value of [x] is rounded (ties to
    even) to a multiple of [1/100], and that decimal is converted back to
    the nearest binary64. Zeros keep their sign; infinities and NaN round
    to themselves. *)
Definition float_round2 (x : float) : float :=
  match Prim2SF x with
  | S754_finite s m e =>
      let hundredths :=
        if 0 <=? e then Z.shiftl (Z.pos m * 100) e
        else div_pow2_half_even (Z.pos m * 100) (- e) in
      match hundredths with
      | Z.pos d =>
          SF2Prim (SFdiv prec emax (S754_finite s d 0) (S754_finite false 100 0))
      | _ => SF2Prim (S754_zero s)
      end
  | _ => x
  end.

(** The builtin [sum] adds floats left to right; since CPython 3.12 it
    carries a Neumaier compensation term along. *)
Inductive summation : Type := Plain | Compensated.

Fixpoint neumaier (xs : list float) (acc c : float) : float :=
  match xs with
  | [] => if negb (c =? 0)%float && is_finite c then (acc + c)%float else acc
  | x :: xs' =>
      let t := (acc + x)%float in
      let c' :=
        if (abs x <=? abs acc)%float then (c + ((acc - t) + x))%float
        else (c + ((x - t) + acc))%float in
      neumaier xs' t c'
  end.

(** [sum(xs)] over floats, from the start value [0] (an [int]): an empty
    sequence sums to the integer [0]. *)
Definition py_sum (alg : summation) (xs : list float) : value :=
  match xs with
  | [] => VInt 0
  | x :: xs' =>
      let first := (0 + x)%float in
      match alg with
      | Plain => VFloat (fold_left PrimFloat.add xs' first)
      | Compensated => VFloat (neumaier xs' first 0%float)
      end
  end.

Definition TypeError (msg : string) : exn := Exn "TypeError" msg.

(** [round(v, 2)]: an [int] rounds to itself. *)
Definition py_round2 (v : value) : result value :=
  match v with
  | VInt z => Ok (VInt z)
  | VFloat f => Ok (VFloat (float_round2 f))
  | _ => Raise (TypeError "type doesn't define __round__ method")
  end.

(** ** The document store

    [database.py] is not part of the handlers' file. The store is
    modelled from the interface the specification gives it: [count],
    [insert] (returning the identity the store assigns), [query] by field
    equality, and the presence check [db is None]. Any call may fail: the
    [faults] script says which of the coming calls raise, and with what. *)

(** Modelled from the spec: the handle [db] imported from [database.py],
    with what the handlers observe of it: its truth value ([if db]), its
    [name] attribute (absent, raising, or a value), the stored
    collections, the next identity to assign, and the script of faults of
    the coming store calls ([Some e]: the call raises [e]). *)
Record database : Type := Database {
  db_bool : result bool;
  db_name : option (result value);
  collections : gmap string (list document);
  next_oid : N;
  faults : list (option exn)
}.

Definition with_faults (fs : list (option exn)) (s : database) : database :=
  Database (db_bool s) (db_name s) (collections s) (next_oid s) fs.

(** Computations that talk to the store: they may change it and may raise. *)
Definition M (A : Type) : Type := database -> result A * database.

Definition ret {A : Type} (a : A) : M A := fun s => (Ok a, s).

Definition bind {A B : Type} (m : M A) (f : A -> M B) : M B := fun s =>
  match m s with
  | (Ok a, s') => f a s'
  | (Raise e, s') => (Raise e, s')
  end.

Definition lift {A : Type} (r : result A) : M A := fun s => (r, s).

Declare Scope store_scope.
Delimit Scope store_scope with store.
Notation "x <- m ;; k" := (bind m (fun x => k))
  (at level 100, m at next level, right associativity) : store_scope.
Notation "m ;;; k" := (bind m (fun _ => k))
  (at level 100, right associativity) : store_scope.

(** [for x in l: f(x)] *)
Fixpoint for_ {A : Type} (f : A -> M unit) (l : list A) : M unit :=
  match l with
  | [] => ret tt
  | x :: l' => (f x ;;; for_ f l')%store
  end.

(** The store once the head of the fault script is used up. *)
Definition settle (s : database) : database := with_faults (tail (faults s)) s.

(** Modelled from the spec: one call to the store. The head of the fault
    script decides whether it raises (leaving the data as it was) or goes
    through; either way that entry of the script is used up. *)
Definition store_call {A : Type} (op : database -> A * database) : M A := fun s =>
  match faults s with
  | Some e :: _ => (Raise e, settle s)
  | _ => let '(a, s') := op (settle s) in (Ok a, s')
  end.

(** The documents of a collection, in insertion order. *)
Definition docs (s : database) (c : string) : list document :=
  default [] (collections s !! c).

Fixpoint zeros (n : nat) : string :=
  match n with
  | O => ""
  | S n' => String "0" (zeros n')
  end.

(** Modelled from the spec: the string form of a store-assigned identity,
    24 hexadecimal digits as [str(ObjectId)] gives. *)
Definition oid_str (o : N) : string :=
  let digits := match o with N0 => "" | Npos p => HexString.Raw.of_pos p "" end in
  zeros (24 - String.length digits) ++ digits.

(** Modelled from the spec: [count(collection, {})], here
    [db[c].count_documents({})]. *)
Definition count_documents (c : string) : M Z :=
  store_call (fun s => (Z.of_nat (length (docs s c)), s)).

(** Modelled from the spec: [insert(collection, document) -> id]. The store
    assigns the next identity, keeps it in the document's [_id] field and
    returns its string form. *)
Definition insert_one (c : string) (data : document) (s : database) : string * database :=
  let o := next_oid s in
  (oid_str o,
   Database (db_bool s) (db_name s)
     (<[c := (docs s c ++ [<["_id" := VOid o]> data])%list]> (collections s))
     (N.succ o) (faults s)).

(** Modelled from the spec: [create_document(collection, data)], the
    insert as a store call that may fail. *)
Definition create_document (c : string) (data : document) : M string :=
  store_call (insert_one c data).

(** A filter [{k: s, ...}] with string values matches the documents whose
    field [k] is the string [s]. *)
Definition matches (flt : list (string * string)) (d : document) : bool :=
  forallb (fun '(k, s) =>
    match d !! k with
    | Some (VStr s') => String.eqb s' s
    | _ => false
    end) flt.

(** Modelled from the spec: [query(collection, filter?) -> sequence of
    document]. *)
Definition get_documents (c : string) (flt : list (string * string)) : M (list document) :=
  store_call (fun s => (List.filter (matches flt) (docs s c), s)).

(** Modelled from the spec: the collection listing that the diagnostics
    probe, [db.list_collection_names()]. *)
Definition list_collection_names : M (list value) :=
  store_call (fun s => (VStr <$> (map_to_list (collections s)).*1, s)).

(** Modelled from the spec: [bool(db)], as in [... if db else 0]; what it
    gives is the handle's. *)
Definition truth : M bool := fun s => (db_bool s, s).

(** ** The interpreter

    Two things are the running CPython's and not the handlers': how [sum]
    adds floats, and [repr] of values other than strings and identities. *)
Record interpreter : Type := Interpreter {
  sum_algorithm : summation;
  repr : value -> string
}.

(** [str(v)] *)
Definition py_str (py : interpreter) (v : value) : string :=
  match v with
  | VStr s => s
  | VOid o => oid_str o
  | _ => repr py v
  end.

(** [v == s] for a string [s] *)
Definition eq_str (v : value) (s : string) : bool :=
  match v with
  | VStr s' => String.eqb s' s
  | _ => false
  end.

(** A dictionary display [{k1: v1, ...}] with distinct keys. *)
Definition dict (kvs : list (string * value)) : document := list_to_map kvs.

(** The process environment, and the truth value of [os.getenv(k)]:
    false when the variable is unset and when it is set to the empty
    string. *)
Definition getenv (environ : gmap string string) (k : string) : option string :=
  environ !! k.

Definition str_truth (o : option string) : bool :=
  match o with
  | Some s => negb (String.eqb s "")
  | None => false
  end.

(** ** Demo fixtures *)

Definition DEMO_RESTAURANT : document := dict [
  ("id", VStr "demo-1");
  ("name", VStr "SnackSprint Diner");
  ("description", VStr "Burgers, bowls and bites delivered fast");
  ("image", VStr "https://images.unsplash.com/photo-1550547660-d9450f859349?w=1200");
  ("cuisine", VStr "American");
  ("rating", VFloat 4.7%float)
].

Definition DEMO_MENU : list document := [
  dict [
    ("id", VStr "m1");
    ("restaurant_id", DEMO_RESTAURANT !!! "id");
    ("name", VStr "Classic Burger");
    ("description", VStr "Juicy beef patty, cheddar, pickles");
    ("price", VFloat 9.99%float);
    ("image", VStr "https://images.unsplash.com/photo-1550547660-2f9b63f1f7b0?w=1200");
    ("is_veg", VBool false);
    ("spice_level", VStr "Mild")
  ];
  dict [
    ("id", VStr "m2");
    ("restaurant_id", DEMO_RESTAURANT !!! "id");
    ("name", VStr "Veggie Bowl");
    ("description", VStr "Roasted veggies, quinoa, tahini");
    ("price", VFloat 8.49%float);
    ("image", VStr "https://images.unsplash.com/photo-1512621776951-a57141f2eefd?w=1200");
    ("is_veg", VBool true);
    ("spice_level", VStr "Medium")
  ];
  dict [
    ("id", VStr "m3");
    ("restaurant_id", DEMO_RESTAURANT !!! "id");
    ("name", VStr "Spicy Chicken Wrap");
    ("description", VStr "Crispy chicken, chipotle mayo");
    ("price", VFloat 10.49%float);
    ("image", VStr "https://images.unsplash.com/photo-1604908177076-9f2bf5f7955f?w=1200");
    ("is_veg", VBool false);
    ("spice_level", VStr "Hot")
  ]
].

(** ** Request payloads *)

Record OrderItemPayload : Type := {
  item_id : string;
  name : string;
  price : float;
  quantity : Z
}.

Record OrderPayload : Type := {
  restaurant_id : string;
  customer_name : string;
  phone : string;
  address : string;
  notes : option string;
  items : list OrderItemPayload
}.

(** [i.model_dump()] *)
Definition model_dump (i : OrderItemPayload) : document := dict [
  ("item_id", VStr (item_id i));
  ("name", VStr (name i));
  ("price", VFloat (price i));
  ("quantity", VInt (quantity i))
].

Definition optional_str (o : option string) : value :=
  match o with
  | Some s => VStr s
  | None => VNone
  end.

(** ** What a handler call comes to

    It returns a value (sent with status 200), raises [HTTPException]
    (sent with its status code and [{"detail": ...}]), or lets another
    exception escape (the framework answers 500). *)
Inductive outcome : Type :=
  | Return (v : value)
  | HTTPException (status_code : Z) (detail : string)
  | Unhandled (e : exn).

Definition status (o : outcome) : Z :=
  match o with
  | Return _ => 200
  | HTTPException code _ => code
  | Unhandled _ => 500
  end.

(** [try: body / except Exception as e: raise HTTPException(500, str(e))]
    around a store computation. *)
Definition or_500 (body : M value) (s : database) : outcome * option database :=
  match body s with
  | (Ok v, s') => (Return v, Some s')
  | (Raise e, s') => (HTTPException 500 (exn_str e), Some s')
  end.

(** ** The handlers *)

Definition read_root : outcome :=
  Return (VDict (dict [("message", VStr "SnackSprint backend is running")])).

(** The body of the [try] block of [seed_demo_data]. *)
Definition seed_body : M value :=
  (truthy <- truth ;;
   restaurants <- (if truthy : bool then count_documents "restaurant" else ret 0) ;;
   (if restaurants =? 0 then
      name_ <- lift (getitem DEMO_RESTAURANT "name") ;;
      description <- lift (getitem DEMO_RESTAURANT "description") ;;
      image <- lift (getitem DEMO_RESTAURANT "image") ;;
      cuisine <- lift (getitem DEMO_RESTAURANT "cuisine") ;;
      rating <- lift (getitem DEMO_RESTAURANT "rating") ;;
      rid <- create_document "restaurant" (dict [
        ("name", name_);
        ("description", description);
        ("image", image);
        ("cuisine", cuisine);
        ("rating", rating)
      ]) ;;
      let rest_id := rid in
      for_ (fun itm =>
        let doc := itm in
        let doc := pop_default doc "id" in
        let doc := <["restaurant_id" := VStr rest_id]> doc in
        _ <- create_document "menuitem" doc ;; ret tt) DEMO_MENU
    else ret tt) ;;;
   ret (VDict (dict [("ok", VBool true); ("mode", VStr "db")])))%store.

Definition seed_demo_data (db : option database) : outcome * option database :=
  match db with
  | None => (Return (VDict (dict [("ok", VBool true); ("mode", VStr "demo")])), None)
  | Some s => or_500 seed_body s
  end.

(** [d["id"] = str(d.pop("_id"))] *)
Definition remap_id (py : interpreter) (d : document) : result document :=
  '(oid, d') ← pop d "_id"; Ok (<["id" := VStr (py_str py oid)]> d').

Definition as_list (ds : list document) : value := VList (VDict <$> ds).

(** The body of the [try] block of [list_restaurants]. *)
Definition restaurants_from_store (py : interpreter) : M (list document) :=
  (data <- get_documents "restaurant" [] ;;
   lift (for_each (remap_id py) data))%store.

Definition list_restaurants (py : interpreter) (db : option database)
  : outcome * option database :=
  match db with
  | None => (Return (as_list [DEMO_RESTAURANT]), None)
  | Some s =>
      match restaurants_from_store py s with
      | (Ok data, s') => (Return (as_list data), Some s')
      | (Raise e, s') => (Return (as_list [DEMO_RESTAURANT]), Some s')
      end
  end.

(** [[m for m in l if m["restaurant_id"] == restaurant_id]] *)
Fixpoint menu_of (l : list document) (rid : string) : result (list document) :=
  match l with
  | [] => Ok []
  | m :: l' =>
      v ← getitem m "restaurant_id";
      ms ← menu_of l' rid;
      Ok (if eq_str v rid then m :: ms else ms)
  end.

(** A comprehension outside any [try]: what it raises escapes. *)
Definition return_or_escape (r : result (list document)) : outcome :=
  match r with
  | Ok ms => Return (as_list ms)
  | Raise e => Unhandled e
  end.

(** The body of the [try] block of [list_menu]. *)
Definition menu_from_store (py : interpreter) (rid : string) : M (list document) :=
  (its <- get_documents "menuitem" [("restaurant_id", rid)] ;;
   lift (for_each (remap_id py) its))%store.

Definition list_menu (py : interpreter) (db : option database) (rid : string)
  : outcome * option database :=
  match db with
  | None => (return_or_escape (menu_of DEMO_MENU rid), None)
  | Some s =>
      match menu_from_store py rid s with
      | (Ok its, s') => (Return (as_list its), Some s')
      | (Raise _, s') => (return_or_escape (menu_of DEMO_MENU rid), Some s')
      end
  end.

(** [sum(max(1, i.quantity) * float(i.price) for i in payload.items)] *)
Definition order_total (py : interpreter) (its : list OrderItemPayload) : result value :=
  terms ← for_each (fun i => int_mul_float (Z.max 1 (quantity i)) (price i)) its;
  Ok (py_sum (sum_algorithm py) terms).

(** The dictionary [order_doc] that [create_order] builds. *)
Definition order_doc (py : interpreter) (payload : OrderPayload) : result document :=
  total ← order_total py (items payload);
  rounded ← py_round2 total;
  Ok (dict [
    ("restaurant_id", VStr (restaurant_id payload));
    ("customer_name", VStr (customer_name payload));
    ("phone", VStr (phone payload));
    ("address", VStr (address payload));
    ("notes", optional_str (notes payload));
    ("items", VList ((fun i => VDict (model_dump i)) <$> items payload));
    ("total", rounded);
    ("status", VStr "pending")
  ]).

Definition create_order (py : interpreter) (db : option database) (payload : OrderPayload)
  : outcome * option database :=
  match order_doc py payload with
  | Raise e => (HTTPException 500 (exn_str e), db)
  | Ok doc =>
      match db with
      | None =>
          (Return (VDict (dict [("ok", VBool true); ("order_id", VStr "demo-order-1")])), None)
      | Some s =>
          or_500 (order_id <- create_document "order" doc ;;
                  ret (VDict (dict [("ok", VBool true); ("order_id", VStr order_id)])))%store s
      end
  end.

(** ["✅ Set" if os.getenv(k) else "❌ Not Set"] *)
Definition set_marker (environ : gmap string string) (k : string) : value :=
  if str_truth (getenv environ k) then VStr "✅ Set" else VStr "❌ Not Set".

(** What reading an attribute that an object does not have raises. *)
Definition AttributeError : exn :=
  Exn "AttributeError" "'Database' object has no attribute 'name'".

(** [db.name]: the attribute's value, what reading it raises, or
    [AttributeError] when the handle has none. *)
Definition getattr_name (s : database) : result value :=
  match db_name s with
  | Some r => r
  | None => Raise AttributeError
  end.

(** [hasattr(db, "name")]: it reads the attribute; an [AttributeError]
    means no, any other exception goes on to the caller. *)
Definition hasattr_name (s : database) : result bool :=
  match getattr_name s with
  | Ok _ => Ok true
  | Raise e => if String.eqb (exn_class e) "AttributeError" then Ok false else Raise e
  end.

(** [db.name if hasattr(db, "name") else "✅ Connected"] *)
Definition name_or_connected (s : database) : result value :=
  has ← hasattr_name s;
  if has : bool then getattr_name s else Ok (VStr "✅ Connected").

(** The [try] block of [test_database]: the response dictionary when it is
    left, normally or through one of its two handlers. *)
Definition probe (environ : gmap string string) (db : option database) (response : document)
  : document * option database :=
  match db with
  | Some s =>
      let response := <["database" := VStr "✅ Available"]> response in
      let response := <["database_url" := set_marker environ "DATABASE_URL"]> response in
      match name_or_connected s with
      | Raise _ => (<["database" := VStr "❌ Error"]> response, Some s)
      | Ok shown =>
          let response := <["database_name" := shown]> response in
          let response := <["connection_status" := VStr "Connected"]> response in
          match list_collection_names s with
          | (Ok names, s') =>
              let response := <["collections" := VList (take 10 names)]> response in
              (<["database" := VStr "✅ Connected & Working"]> response, Some s')
          | (Raise _, s') =>
              (<["database" := VStr "⚠️  Connected but Error"]> response, Some s')
          end
      end
  | None => (<["database" := VStr "ℹ️ Using demo mode (no database)"]> response, None)
  end.

Definition test_database (environ : gmap string string) (db : option database)
  : outcome * option database :=
  let response := dict [
    ("backend", VStr "✅ Running");
    ("database", VStr "❌ Not Available");
    ("database_url", VNone);
    ("database_name", VNone);
    ("connection_status", VStr "Not Connected");
    ("collections", VList [])
  ] in
  let '(response, db') := probe environ db response in
  let response := <["database_url" := set_marker environ "DATABASE_URL"]> response in
  let response := <["database_name" := set_marker environ "DATABASE_NAME"]> response in
  (Return (VDict response), db').

(** ** Sample inputs *)

(** An interpreter with the plain [sum] and a [repr] that is never looked
    at in the samples. *)
Definition sample_py : interpreter := Interpreter Plain (fun _ => "<repr>").

(** A configured store with nothing in it and no fault ahead. *)
Definition empty_store : database := Database (Ok true) None ∅ 0 [].

(** The order of the specification's example: one burger, and a bowl with
    quantity 0. *)
Definition sample_order : OrderPayload := {|
  restaurant_id := "demo-1";
  customer_name := "Ada";
  phone := "555-0100";
  address := "1 Main St";
  notes := None;
  items := [
    {| item_id := "m1"; name := "Classic Burger"; price := 9.99%float; quantity := 1 |};
    {| item_id := "m2"; name := "Veggie Bowl"; price := 8.49%float; quantity := 0 |}
  ]
|}.

(** An order for [2^1024] burgers: a valid [int], out of the range of
    [float]. *)
Definition huge_order : OrderPayload := {|
  restaurant_id := "demo-1";
  customer_name := "Ada";
  phone := "555-0100";
  address := "1 Main St";
  notes := None;
  items := [
    {| item_id := "m1"; name := "Classic Burger"; price := 9.99%float;
       quantity := 2 ^ 1024 |}
  ]
|}.

(** A store whose next call fails. *)
Definition unreachable_store : database :=
  Database (Ok true) None ∅ 0
    [Some (Exn "ServerSelectionTimeoutError" "localhost:27017: connection refused")].

(** A store holding a restaurant and a menu item without identity field. *)
Definition odd_store : database :=
  Database (Ok true) None
    (<["restaurant" := [dict [("name", VStr "Nameless")]]]>
     (<["menuitem" := [dict [("restaurant_id", VStr "r1"); ("name", VStr "Soup")]]]> ∅))
    0 [].

(** A store with the menus of two restaurants. *)
Definition stocked_store : database :=
  Database (Ok true) None
    (<["menuitem" := [
        dict [("_id", VOid 1); ("restaurant_id", VStr "r1"); ("name", VStr "Soup")];
        dict [("_id", VOid 2); ("restaurant_id", VStr "r2"); ("name", VStr "Salad")];
        dict [("_id", VOid 3); ("restaurant_id", VStr "r1"); ("name", VStr "Stew")]]]> ∅)
    4 [].

(** What [create_order] answers in demo mode. *)
Definition demo_ack : value :=
  VDict (dict [("ok", VBool true); ("order_id", VStr "demo-order-1")]).

(** An empty store whose [k+1]-th call fails. *)
Definition ConnectionClosed : exn := Exn "AutoReconnect" "connection closed".

Definition flaky_store (k : nat) : database :=
  Database (Ok true) None ∅ 0 (replicate k None ++ [Some ConnectionClosed]).

(** A handle that refuses truth testing, as driver handles that ask to be
    compared with [None] do. *)
Definition no_truth_store : database :=
  Database (Raise (Exn "NotImplementedError" "Database objects do not implement truth value testing"))
    None ∅ 0 [].

(** Environments: the store variables set to two different servers, and
    [DATABASE_URL] set to the empty string or to a server. *)
Definition env_a : gmap string string :=
  <["DATABASE_URL" := "mongodb://a.example:27017"]> (<["DATABASE_NAME" := "snacks"]> ∅).

Definition env_b : gmap string string :=
  <["DATABASE_URL" := "mongodb://b.example:27017"]> (<["DATABASE_NAME" := "sprint"]> ∅).

Definition env_blank_url : gmap string string := <["DATABASE_URL" := ""]> ∅.

Definition env_url : gmap string string := <["DATABASE_URL" := "mongodb://localhost"]> ∅.

(** ** Vocabulary of the properties *)

(** The next store call goes through. *)
Definition next_ok (s : database) : Prop :=
  match faults s with
  | Some _ :: _ => False
  | _ => True
  end.

(** No store call of the script fails. *)
Definition fault_free (s : database) : Prop := Forall (fun f => f = None) (faults s).

(** [float(n)] without the range check: the nearest binary64, infinite
    when [n] is out of range. *)
Definition nearest_float (n : Z) : float := SF2Prim (binary_normalize prec emax n 0 false).

(** The integer [n] is in the range of [float]. *)
Definition converts (n : Z) : bool :=
  match int_to_float n with
  | Ok _ => true
  | Raise _ => false
  end.

(** Every effective quantity of the order is in the range of [float]. *)
Definition payable (its : list OrderItemPayload) : bool :=
  forallb (fun i => converts (Z.max 1 (quantity i))) its.

(** The specification's total: [round(Σ max(1, q_i) × p_i, 2)], the sum
    taken by the interpreter's [sum]. *)
Definition effective_quantity (i : OrderItemPayload) : Z := Z.max 1 (quantity i).

Definition line_amount (i : OrderItemPayload) : float :=
  (nearest_float (effective_quantity i) * price i)%float.

Definition spec_total (py : interpreter) (its : list OrderItemPayload) : result value :=
  py_round2 (py_sum (sum_algorithm py) (line_amount <$> its)).

(** The item with its quantity replaced by the effective one. *)
Definition clamp (i : OrderItemPayload) : OrderItemPayload :=
  {| item_id := item_id i; name := name i; price := price i;
     quantity := effective_quantity i |}.

(** The demo menu filtered by [restaurant_id]. *)
Definition demo_menu_for (rid : string) : list document :=
  List.filter (fun m => eq_str (m !!! "restaurant_id") rid) DEMO_MENU.

(** The stored documents of a collection that a filter selects. *)
Definition selected (s : database) (c : string) (flt : list (string * string)) : list document :=
  List.filter (matches flt) (docs s c).

(** What [seed_demo_data] answers in store-backed mode. *)
Definition seed_ack : value := VDict (dict [("ok", VBool true); ("mode", VStr "db")]).

(** The documents that [seed_demo_data] hands to the store: the demo
    restaurant without its demo id, and a demo item without its demo id,
    pointing at [rest_id]. *)
Definition seed_restaurant : document := delete "id" DEMO_RESTAURANT.

Definition seed_item (rest_id : string) (itm : document) : document :=
  <["restaurant_id" := VStr rest_id]> (delete "id" itm).

(** The store after a seed that found no restaurant and met no fault: the
    existence check, the restaurant insert, one insert per demo item. *)
Definition seeded (s : database) : database :=
  let s1 := (insert_one "restaurant" seed_restaurant (settle (settle s))).2 in
  fold_left (fun st itm =>
               (insert_one "menuitem" (seed_item (oid_str (next_oid s)) itm) (settle st)).2)
    DEMO_MENU s1.

(** The store-assigned identity of a stored document. *)
Definition oid_of (d : document) : option N :=
  match d !! "_id" with
  | Some (VOid o) => Some o
  | _ => None
  end.

(** The invariant of a store that assigned every identity itself: in each
    collection every document carries an identity below the next one to
    assign, and no two documents share one. *)
Definition store_wf (s : database) : Prop :=
  forall c,
    Forall (fun d => exists o, oid_of d = Some o /\ (o < next_oid s)%N) (docs s c) /\
    NoDup (oid_of <$> docs s c).

(** The next [k] store calls go through and the one after raises [e]. *)
Definition fault_at (k : nat) (e : exn) (s : database) : Prop :=
  exists rest, faults s = (replicate k None ++ Some e :: rest)%list.

(** Reading back the string form of an identity. *)
Definition oid_of_str (x : string) : N := HexString.Raw.to_N x 0.

(** How a stored document with an identity comes back from a listing. *)
Definition remapped (d it : document) : Prop :=
  exists o, oid_of d = Some o /\ it = <["id" := VStr (oid_str o)]> (delete "_id" d).

(** ** Seeding step by step *)

(** One menu insert of the seed loop. *)
Definition menu_insert (rest_id : string) (st : database) (itm : document) : database :=
  (insert_one "menuitem" (seed_item rest_id itm) (settle st)).2.

(** The store after the restaurant insert of a seed, from the store [s0]
    in which the existence check left it. *)
Definition restaurant_inserted (s0 : database) : database :=
  (insert_one "restaurant" seed_restaurant (settle s0)).2.

(** The store after all the inserts of a seed. *)
Definition seed_inserts (s0 : database) : database :=
  fold_left (menu_insert (oid_str (next_oid s0))) DEMO_MENU (restaurant_inserted s0).

(** The store after a seed whose menu insert number [j] (from 0) failed. *)
Definition seed_interrupted (j : nat) (s0 : database) : database :=
  settle (fold_left (menu_insert (oid_str (next_oid s0))) (take j DEMO_MENU)
            (restaurant_inserted s0)).

(** The menu documents of a seed whose restaurant got the identity [o]. *)
Definition seed_menu_docs (o : N) : list document :=
  (fun '(k, itm) => <["_id" := VOid (o + k)%N]> (seed_item (oid_str o) itm))
  <$> zip [1; 2; 3]%N DEMO_MENU.

(** The inserts of [seed_demo_data], run when no restaurant was counted. *)
Definition insert_phase : M unit :=
  (rid <- create_document "restaurant" seed_restaurant ;;
   for_ (fun itm => _ <- create_document "menuitem" (seed_item rid itm) ;; ret tt)
     DEMO_MENU)%store.

(** ** Frames *)

(** Every document that was stored is still stored, in its place. *)
Definition grows (s s' : database) : Prop :=
  forall c, docs s c `prefix_of` docs s' c.

(** Nothing was stored and no identity was assigned. *)
Definition same_data (s s' : database) : Prop :=
  collections s' = collections s /\ next_oid s' = next_oid s.

(** A handler never makes or drops the handle; [R] relates the store
    before and after when there is one. *)
Definition between (R : database -> database -> Prop) (db db' : option database) : Prop :=
  match db, db' with
  | Some s, Some s' => R s s'
  | None, None => True
  | _, _ => False
  end.

(** A store computation keeps a frame [R], however it ends. *)
Definition keeps {A : Type} (R : database -> database -> Prop) (m : M A) : Prop :=
  forall s r s', m s = (r, s') -> R s s'.

(** The success bodies of the two writing handlers. *)
Definition seed_reply (mode : string) : value :=
  VDict (dict [("ok", VBool true); ("mode", VStr mode)]).

Definition order_reply (order_id : string) : value :=
  VDict (dict [("ok", VBool true); ("order_id", VStr order_id)]).

(** ** The declared schemas ([schemas.py])

    A class of [schemas.py] declares fields, each with a type, whether it
    may be [None], a default or none ([Field(...)]: required) and a lower
    bound ([ge]). The validation that follows from a declaration is
    modelled as far as the declaration fixes it: a value of the declared
    type is checked against the bound, a missing field takes its default
    or is an error, fields that are not declared are ignored. A value of
    another type would go through the library's conversions, which are
    left out: the verdict is then [Unmodelled], unless another field is
    in error anyway. *)
Inductive verdict (A : Type) : Type :=
  | Valid (a : A)
  | Invalid
  | Unmodelled.
Arguments Valid {A} a.
Arguments Invalid {A}.
Arguments Unmodelled {A}.

Inductive ftype : Type :=
  | TStr
  | TFloat
  | TInt
  | TBool
  | TListOf (item : value -> verdict value).

Record field : Type := Field {
  f_type : ftype;
  f_optional : bool;
  f_default : option value;
  f_ge : option Z
}.

(** [value >= ge]; the bounds of [schemas.py] are 0 and 1. *)
Definition ge_int (bound : option Z) (z : Z) : bool :=
  match bound with
  | Some b => b <=? z
  | None => true
  end.

Definition ge_float (bound : option Z) (x : float) : bool :=
  match bound with
  | Some b => (nearest_float b <=? x)%float
  | None => true
  end.

(** Errors win over what is not modelled: one field in error is enough
    for the whole validation to fail. *)
Definition both {A B C : Type} (f : A -> B -> C) (a : verdict A) (b : verdict B) : verdict C :=
  match a, b with
  | Invalid, _ | _, Invalid => Invalid
  | Unmodelled, _ | _, Unmodelled => Unmodelled
  | Valid x, Valid y => Valid (f x y)
  end.

Fixpoint check_all (item : value -> verdict value) (l : list value) : verdict (list value) :=
  match l with
  | [] => Valid []
  | v :: l' => both cons (item v) (check_all item l')
  end.

Definition check_typed (f : field) (v : value) : verdict value :=
  match f_type f, v with
  | _, VNone => if f_optional f then Valid VNone else Invalid
  | TStr, VStr _ => Valid v
  | TFloat, VFloat x => if ge_float (f_ge f) x then Valid v else Invalid
  | TInt, VInt z => if ge_int (f_ge f) z then Valid v else Invalid
  | TBool, VBool _ => Valid v
  | TListOf item, VList l => both (fun l' _ => VList l') (check_all item l) (Valid tt)
  | _, _ => Unmodelled
  end.

Definition check_field (f : field) (o : option value) : verdict value :=
  match o with
  | Some v => check_typed f v
  | None =>
      match f_default f with
      | Some v => Valid v
      | None => Invalid
      end
  end.

(** [Model.model_validate(d)], giving the declared fields of the model. *)
Fixpoint validate (m : list (string * field)) (d : document) : verdict document :=
  match m with
  | [] => Valid ∅
  | (k, f) :: m' => both (fun v d' => <[k := v]> d') (check_field f (d !! k)) (validate m' d)
  end.

Definition validate_value (m : list (string * field)) (v : value) : verdict value :=
  match v with
  | VDict d => both (fun d' _ => VDict d') (validate m d) (Valid tt)
  | _ => Unmodelled
  end.

Definition MenuItem : list (string * field) := [
  ("name", Field TStr false None None);
  ("description", Field TStr true (Some VNone) None);
  ("price", Field TFloat false None (Some 0));
  ("image", Field TStr true (Some VNone) None);
  ("category", Field TStr false None None);
  ("spicy", Field TBool true (Some (VBool false)) None);
  ("vegetarian", Field TBool true (Some (VBool false)) None)
].

Definition OrderItem : list (string * field) := [
  ("item_id", Field TStr false None None);
  ("name", Field TStr false None None);
  ("price", Field TFloat false None (Some 0));
  ("quantity", Field TInt false None (Some 1))
].

Definition Order : list (string * field) := [
  ("customer_name", Field TStr false None None);
  ("phone", Field TStr false None None);
  ("address", Field TStr false None None);
  ("items", Field (TListOf (validate_value OrderItem)) false None None);
  ("subtotal", Field TFloat false None (Some 0));
  ("delivery_fee", Field TFloat false (Some (VFloat 0%float)) (Some 0));
  ("total", Field TFloat false None (Some 0));
  ("status", Field TStr false (Some (VStr "pending")) None)
].

(** ** The two kinds of diagnostics report for a configured store *)

Definition reports_error (s : database) (r : document) (names : list value)
    (db' : option database) : Prop :=
  r !! "database" = Some (VStr "❌ Error") /\
  r !! "connection_status" = Some (VStr "Not Connected") /\
  names = [] /\ db' = Some s.

Definition reports_connected (s : database) (r : document) (names : list value) : Prop :=
  r !! "connection_status" = Some (VStr "Connected") /\
  ((next_ok s /\
    r !! "database" = Some (VStr "✅ Connected & Working") /\
    names = take 10 (VStr <$> (map_to_list (collections s)).*1))
   \/
   (~ next_ok s /\
    r !! "database" = Some (VStr "⚠️  Connected but Error") /\
    names = [])).

(** ** More sample inputs *)

(** A configured handle that counts as false. *)
Definition falsy_store : database := Database (Ok false) None ∅ 0 [].

(** A store with two restaurants, one of them with a field [id] of its
    own. *)
Definition two_restaurants : database :=
  Database (Ok true) None
    (<["restaurant" := [
        dict [("_id", VOid 7); ("name", VStr "Noodle Bar"); ("id", VStr "legacy-9")];
        dict [("_id", VOid 8); ("name", VStr "Taqueria")]]]> ∅)
    9 [].

(** A store whose [name] attribute cannot be read. *)
Definition nameless_store : database :=
  Database (Ok true) (Some (Raise (Exn "OperationFailure" "not authorized"))) ∅ 0 [].

(** A store whose [name] attribute raises [AttributeError] when read. *)
Definition shy_store : database :=
  Database (Ok true) (Some (Raise (Exn "AttributeError" "name"))) ∅ 0 [].

(** An order without items. *)
Definition empty_order : OrderPayload := {|
  restaurant_id := "demo-1";
  customer_name := "Ada";
  phone := "555-0100";
  address := "1 Main St";
  notes := Some "nothing today";
  items := []
|}.

(** * Properties *)

(** ** The numeric builtins on known values *)

Example round2_down : float_round2 2.675%float = 2.67%float.
Proof. vm_compute. reflexivity. Qed.

Example round2_tie_even : float_round2 0.125%float = 0.12%float.
Proof. vm_compute. reflexivity. Qed.

Example round2_tie_up : float_round2 0.375%float = 0.38%float.
Proof. vm_compute. reflexivity. Qed.

Example round2_large : float_round2 1e300%float = 1e300%float.
Proof. vm_compute. reflexivity. Qed.

Example round2_negative_zero : Prim2SF (float_round2 (-0.001)%float) = S754_zero true.
Proof. vm_compute. reflexivity. Qed.

Example int_to_float_small : int_to_float 3 = Ok 3%float.
Proof. vm_compute. reflexivity. Qed.

Example int_to_float_largest :
  int_to_float (2 ^ 1024 - 2 ^ 970 - 1) = Ok 0x1.fffffffffffffp+1023%float.
Proof. vm_compute. reflexivity. Qed.

Example int_to_float_too_large : int_to_float (2 ^ 1024 - 2 ^ 970) = Raise OverflowError.
Proof. vm_compute. reflexivity. Qed.

Example sum_tenths_plain :
  py_sum Plain (repeat 0.1%float 10) = VFloat 0.99999999999999989%float.
Proof. vm_compute. reflexivity. Qed.

Example sum_tenths_compensated :
  py_sum Compensated (repeat 0.1%float 10) = VFloat 1%float.
Proof. vm_compute. reflexivity. Qed.

(** ** The result monad and comprehensions *)

Lemma for_each_app {A B : Type} (f : A -> result B) (l1 l2 : list A) (r1 r2 : list B) :
  for_each f l1 = Ok r1 -> for_each f l2 = Ok r2 ->
  for_each f (l1 ++ l2)%list = Ok (r1 ++ r2)%list.
Proof.
  revert r1. induction l1 as [|x l1 IH]; intros r1 H1 H2; simpl in *.
  - by inversion H1.
  - destruct (f x) as [y|e]; simpl in *; [|discriminate].
    destruct (for_each f l1) as [ys|e]; simpl in *; [|discriminate].
    inversion H1; subst. by rewrite (IH ys eq_refl H2).
Qed.

Lemma for_each_Forall2 {A B : Type} (f : A -> result B) (l : list A) (r : list B) :
  for_each f l = Ok r <-> Forall2 (fun x y => f x = Ok y) l r.
Proof.
  revert r. induction l as [|x l IH]; intros r; simpl.
  - split; [intros [= <-]; constructor | by inversion 1].
  - split.
    + destruct (f x) as [y|e] eqn:Hx; simpl; [|discriminate].
      destruct (for_each f l) as [ys|e] eqn:Hl; simpl; [|discriminate].
      intros [= <-]. constructor; [done|]. by apply IH.
    + inversion 1 as [|? y ? ys Hx Hl]; subst. rewrite Hx. simpl.
      apply IH in Hl. by rewrite Hl.
Qed.

Lemma for_each_ext {A B : Type} (f g : A -> result B) (l : list A) :
  Forall (fun x => f x = g x) l -> for_each f l = for_each g l.
Proof.
  induction 1 as [|x l Hx _ IH]; simpl; [done|]. by rewrite Hx, IH.
Qed.

(** ** Store calls *)

Lemma docs_settle (s : database) (c : string) : docs (settle s) c = docs s c.
Proof. reflexivity. Qed.

Lemma store_call_through {A : Type} (op : database -> A * database) (s : database) :
  next_ok s -> store_call op s = (Ok (op (settle s)).1, (op (settle s)).2).
Proof.
  unfold next_ok, store_call. intros H.
  destruct (faults s) as [|[e|] fs]; [|done|]; by destruct (op (settle s)).
Qed.

Lemma store_call_fault {A : Type} (op : database -> A * database) (s : database) e fs :
  faults s = Some e :: fs -> store_call op s = (Raise e, with_faults fs s).
Proof. unfold store_call, settle. by intros ->. Qed.

Lemma fault_free_next_ok (s : database) : fault_free s -> next_ok s.
Proof.
  unfold fault_free, next_ok. destruct (faults s) as [|[e|] fs]; [done| |done].
  by inversion 1.
Qed.

Lemma fault_free_settle (s : database) : fault_free s -> fault_free (settle s).
Proof.
  unfold fault_free. simpl. destruct (faults s); simpl; [done|]. by inversion 1.
Qed.

Lemma docs_insert_one (c : string) (data : document) (s : database) :
  docs (insert_one c data s).2 c
  = (docs s c ++ [<["_id" := VOid (next_oid s)]> data])%list.
Proof. unfold docs at 1. simpl. by rewrite lookup_insert_eq. Qed.

Lemma docs_insert_one_ne (c c' : string) (data : document) (s : database) :
  c ≠ c' -> docs (insert_one c data s).2 c' = docs s c'.
Proof. intros H. unfold docs at 1. simpl. by rewrite lookup_insert_ne. Qed.

Lemma create_document_through (c : string) (data : document) (s : database) :
  next_ok s ->
  create_document c data s = (Ok (oid_str (next_oid s)), (insert_one c data (settle s)).2).
Proof. intros H. unfold create_document. by rewrite store_call_through. Qed.

(** ** Integers in the range of [float]

    Every positive integer below [2^53] is a binary64 number, so an order
    whose quantities stay below [2^53] has a total. *)

Lemma digits2_pos_size (m : positive) : digits2_pos m = Pos.size m.
Proof. induction m as [m IH|m IH|]; simpl; by rewrite ?IH. Qed.

Lemma digits2_pos_iter_xO (m k : positive) :
  digits2_pos (Pos.iter xO m k) = (digits2_pos m + k)%positive.
Proof.
  induction k as [|k IH] using Pos.peano_ind.
  - simpl. lia.
  - rewrite Pos.iter_succ. simpl. rewrite IH. lia.
Qed.

Lemma digits2_pos_bound (m : positive) :
  Z.pos m < 2 ^ 53 -> Z.pos (digits2_pos m) <= 53.
Proof.
  intros H. rewrite digits2_pos_size.
  destruct (Z.le_gt_cases (Z.pos (Pos.size m)) 53) as [|Hgt]; [done|].
  pose proof (Pos.size_le m) as Hle.
  assert (H2 : 2 ^ Z.pos (Pos.size m) <= 2 * Z.pos m).
  { rewrite <- Pos2Z.inj_pow. change (2 * Z.pos m) with (Z.pos m~0). lia. }
  assert (2 ^ 54 <= 2 ^ Z.pos (Pos.size m)) by (apply Z.pow_le_mono_r; lia).
  lia.
Qed.

Lemma binary_round_aux_exact (sx : bool) (m : positive) (e : Z) :
  Z.pos (digits2_pos m) = 53 -> -1074 <= e <= 971 ->
  binary_round_aux prec emax sx (Z.pos m) e loc_Exact = S754_finite sx m e.
Proof.
  intros Hd He. unfold binary_round_aux, shr_fexp, fexp, emin, prec, emax.
  cbn [Zdigits2 shr_record_of_loc]. rewrite Hd.
  replace (Z.max (53 + e - 53) (3 - 1024 - 53) - e) with 0 by lia.
  cbn [shr shr_m loc_of_shr_record round_nearest_even Zdigits2 shr_record_of_loc].
  rewrite Hd.
  replace (Z.max (53 + e - 53) (3 - 1024 - 53) - e) with 0 by lia.
  cbn [shr shr_m]. replace (e <=? 1024 - 53) with true by (symmetry; apply Z.leb_le; lia).
  reflexivity.
Qed.

Lemma fexp_digits (d : positive) : fexp prec emax (Z.pos d + 0) = Z.pos d - 53.
Proof. unfold fexp, emin, prec, emax. lia. Qed.

Lemma converts_small (n : Z) : 0 < n < 2 ^ 53 -> converts n = true.
Proof.
  intros [Hpos Hlt]. destruct n as [|m|m]; try lia.
  pose proof (digits2_pos_bound m Hlt) as Hd.
  unfold converts, int_to_float. cbn [binary_normalize]. unfold binary_round, shl_align.
  rewrite fexp_digits, Z.sub_0_r.
  destruct (Z.pos (digits2_pos m) - 53) as [|k|k] eqn:Hk; try lia.
  - rewrite binary_round_aux_exact; [done|lia|lia].
  - rewrite binary_round_aux_exact; [done| |lia].
    rewrite digits2_pos_iter_xO. lia.
Qed.

(** ** Order totals *)

Lemma int_to_float_nearest (n : Z) :
  converts n = true -> int_to_float n = Ok (nearest_float n).
Proof.
  unfold converts, int_to_float, nearest_float.
  by destruct (binary_normalize prec emax n 0 false).
Qed.

Lemma int_mul_float_nearest (n : Z) (x : float) :
  converts n = true -> int_mul_float n x = Ok (nearest_float n * x)%float.
Proof. intros H. unfold int_mul_float. by rewrite (int_to_float_nearest n H). Qed.

Lemma int_mul_float_raise (n : Z) (x : float) :
  converts n = false -> int_mul_float n x = Raise OverflowError.
Proof.
  unfold int_mul_float, converts, int_to_float.
  by destruct (binary_normalize prec emax n 0 false).
Qed.

Lemma line_amounts (its : list OrderItemPayload) :
  payable its = true ->
  for_each (fun i => int_mul_float (Z.max 1 (quantity i)) (price i)) its
  = Ok (line_amount <$> its).
Proof.
  induction its as [|i its IH]; [done|].
  cbn [payable forallb for_each fmap list_fmap]. intros [Hi Hits]%andb_prop.
  rewrite (int_mul_float_nearest _ _ Hi). cbn [mbind result_bind].
  by rewrite (IH Hits).
Qed.

Lemma line_amounts_raise (its : list OrderItemPayload) :
  payable its = false ->
  for_each (fun i => int_mul_float (Z.max 1 (quantity i)) (price i)) its
  = Raise OverflowError.
Proof.
  induction its as [|i its IH]; [done|].
  cbn [payable forallb for_each]. fold (payable its).
  destruct (converts (Z.max 1 (quantity i))) eqn:Hi; cbn [andb].
  - rewrite (int_mul_float_nearest _ _ Hi). cbn [mbind result_bind].
    intros H. by rewrite (IH H).
  - intros _. by rewrite (int_mul_float_raise _ _ Hi).
Qed.

Lemma payable_small (its : list OrderItemPayload) :
  Forall (fun i => quantity i < 2 ^ 53) its -> payable its = true.
Proof.
  induction 1 as [|i its Hi _ IH]; [done|].
  cbn [payable forallb]. fold (payable its). rewrite IH, andb_true_r.
  apply converts_small. lia.
Qed.

Lemma order_total_spec (py : interpreter) (its : list OrderItemPayload) :
  payable its = true ->
  order_total py its = Ok (py_sum (sum_algorithm py) (line_amount <$> its)).
Proof. intros H. unfold order_total. by rewrite (line_amounts _ H). Qed.

Lemma effective_quantity_clamp (i : OrderItemPayload) :
  Z.max 1 (quantity (clamp i)) = Z.max 1 (quantity i).
Proof. unfold clamp, effective_quantity. cbn [quantity]. lia. Qed.

Lemma order_total_clamp (py : interpreter) (its : list OrderItemPayload) :
  order_total py (clamp <$> its) = order_total py its.
Proof.
  unfold order_total. f_equal.
  induction its as [|i its IH]; [done|].
  cbn [fmap list_fmap for_each]. fold (fmap (M:=list) clamp its).
  by rewrite IH, (effective_quantity_clamp i).
Qed.

Lemma py_sum_round2 (alg : summation) (xs : list float) :
  exists t, py_round2 (py_sum alg xs) = Ok t.
Proof. destruct xs as [|x xs]; [|destruct alg]; simpl; eauto. Qed.

Lemma order_doc_payable (py : interpreter) (payload : OrderPayload) :
  payable (items payload) = true ->
  exists t doc,
    spec_total py (items payload) = Ok t /\
    order_doc py payload = Ok doc /\
    doc !! "total" = Some t /\
    doc !! "items" = Some (VList ((fun i => VDict (model_dump i)) <$> items payload)) /\
    doc !! "restaurant_id" = Some (VStr (restaurant_id payload)) /\
    doc !! "customer_name" = Some (VStr (customer_name payload)) /\
    doc !! "phone" = Some (VStr (phone payload)) /\
    doc !! "address" = Some (VStr (address payload)) /\
    doc !! "notes" = Some (optional_str (notes payload)) /\
    doc !! "status" = Some (VStr "pending") /\
    dom doc = list_to_set ["restaurant_id"; "customer_name"; "phone"; "address";
                           "notes"; "items"; "total"; "status"].
Proof.
  intros H. unfold order_doc, spec_total. rewrite (order_total_spec py _ H). simpl.
  destruct (py_sum_round2 (sum_algorithm py) (line_amount <$> items payload)) as [t Ht].
  rewrite Ht. simpl. exists t. eexists. split; [done|]. split; [done|].
  repeat split; try (vm_compute; reflexivity).
Qed.

Lemma model_dump_fields (i : OrderItemPayload) :
  model_dump i !! "item_id" = Some (VStr (item_id i)) /\
  model_dump i !! "name" = Some (VStr (name i)) /\
  model_dump i !! "price" = Some (VFloat (price i)) /\
  model_dump i !! "quantity" = Some (VInt (quantity i)) /\
  dom (model_dump i) = list_to_set ["item_id"; "name"; "price"; "quantity"].
Proof. repeat split; vm_compute; reflexivity. Qed.

Lemma non_positive_quantity (i : OrderItemPayload) :
  quantity i <= 0 ->
  converts (effective_quantity i) = true /\ line_amount i = (1 * price i)%float.
Proof.
  intros H. unfold line_amount, effective_quantity.
  replace (Z.max 1 (quantity i)) with 1 by lia. split; vm_compute; reflexivity.
Qed.

Lemma create_order_raise (py : interpreter) (db : option database) (payload : OrderPayload) e :
  order_doc py payload = Raise e ->
  create_order py db payload = (HTTPException 500 (exn_str e), db).
Proof. unfold create_order. by intros ->. Qed.

Lemma order_doc_overflow (py : interpreter) (payload : OrderPayload) :
  payable (items payload) = false -> order_doc py payload = Raise OverflowError.
Proof.
  intros H. unfold order_doc, order_total. by rewrite (line_amounts_raise _ H).
Qed.

Lemma create_order_insert_through (py : interpreter) (s : database) (payload : OrderPayload) doc :
  order_doc py payload = Ok doc -> next_ok s ->
  create_order py (Some s) payload
  = (Return (VDict (dict [("ok", VBool true); ("order_id", VStr (oid_str (next_oid s)))])),
     Some (insert_one "order" doc (settle s)).2).
Proof.
  intros Hdoc Hok. unfold create_order, or_500, bind. rewrite Hdoc.
  by rewrite (create_document_through _ _ _ Hok).
Qed.

Lemma create_order_insert_fault (py : interpreter) (s : database) (payload : OrderPayload) doc e fs :
  order_doc py payload = Ok doc -> faults s = Some e :: fs ->
  create_order py (Some s) payload
  = (HTTPException 500 (exn_str e), Some (with_faults fs s)).
Proof.
  intros Hdoc Hf. unfold create_order, or_500, bind, create_document. rewrite Hdoc.
  by rewrite (store_call_fault _ _ _ _ Hf).
Qed.

(** C1, as stated, fails: with a store configured, an order for [2^1024]
    burgers, a structurally valid payload, gets no total at all. The
    product [max(1, q) * p] raises [OverflowError], the handler answers
    status 500, and no order is stored. *)
Lemma store_order_overflow :
  payable (items huge_order) = false /\
  create_order sample_py (Some empty_store) huge_order
  = (HTTPException 500 "int too large to convert to float", Some empty_store) /\
  status (create_order sample_py (Some empty_store) huge_order).1 = 500 /\
  docs empty_store "order" = [].
Proof. repeat split; by vm_compute. Qed.

(** C1, amended. For an order whose effective quantities [max(1, q_i)]
    are in the range of [float], [create_order] computes the total
    [round(Σ max(1, q_i) × p_i, 2)] for the document it builds. With a
    store whose insert goes through the order is accepted and stored
    with that total; an insert that raises is answered with status 500
    and the exception's message. The total is that of the order with
    every quantity replaced by [max(1, q_i)], and an item with a quantity
    of 0 or less is always in range and contributes [1 × p_i]. *)
Theorem create_order_total (py : interpreter) (s : database) (payload : OrderPayload) :
  payable (items payload) = true ->
  exists t doc,
    spec_total py (items payload) = Ok t /\
    order_doc py payload = Ok doc /\
    doc !! "total" = Some t /\
    (next_ok s ->
     exists stored s',
       create_order py (Some s) payload
       = (Return (VDict (dict [("ok", VBool true);
                               ("order_id", VStr (oid_str (next_oid s)))])), Some s') /\
       docs s' "order" = (docs s "order" ++ [stored])%list /\
       stored !! "total" = Some t) /\
    (forall e fs, faults s = Some e :: fs ->
       (create_order py (Some s) payload).1 = HTTPException 500 (exn_str e)) /\
    order_total py (clamp <$> items payload) = order_total py (items payload) /\
    Forall (fun i => quantity i <= 0 ->
              converts (effective_quantity i) = true /\
              line_amount i = (1 * price i)%float) (items payload).
Proof.
  intros Hpay.
  destruct (order_doc_payable py payload Hpay) as (t & doc & Ht & Hdoc & Htotal & _).
  exists t, doc. split; [done|]. split; [done|]. split; [done|].
  split.
  { intros Hok.
    exists (<["_id" := VOid (next_oid s)]> doc), (insert_one "order" doc (settle s)).2.
    split; [by apply create_order_insert_through|].
    split; [by rewrite docs_insert_one|].
    by rewrite lookup_insert_ne. }
  split.
  { intros e fs Hf. by rewrite (create_order_insert_fault py s payload doc e fs Hdoc Hf). }
  split; [apply order_total_clamp|].
  apply Forall_forall. intros i _. apply non_positive_quantity.
Qed.

(** C10. An order persisted in store-backed mode is stored as the
    payload gave it: the items verbatim, with their original quantities,
    the customer fields unchanged, the status ["pending"], and no field
    besides the payload's, [total], [status] and the identity the store
    assigns; in particular no [subtotal] and no [delivery_fee]. *)
Theorem create_order_stores_payload (py : interpreter) (s : database) (payload : OrderPayload) :
  payable (items payload) = true -> next_ok s ->
  exists stored s' o,
    create_order py (Some s) payload = (o, Some s') /\
    docs s' "order" = (docs s "order" ++ [stored])%list /\
    stored !! "items" = Some (VList ((fun i => VDict (model_dump i)) <$> items payload)) /\
    Forall (fun i =>
      model_dump i !! "item_id" = Some (VStr (item_id i)) /\
      model_dump i !! "name" = Some (VStr (name i)) /\
      model_dump i !! "price" = Some (VFloat (price i)) /\
      model_dump i !! "quantity" = Some (VInt (quantity i)) /\
      dom (model_dump i) = list_to_set ["item_id"; "name"; "price"; "quantity"])
      (items payload) /\
    stored !! "restaurant_id" = Some (VStr (restaurant_id payload)) /\
    stored !! "customer_name" = Some (VStr (customer_name payload)) /\
    stored !! "phone" = Some (VStr (phone payload)) /\
    stored !! "address" = Some (VStr (address payload)) /\
    stored !! "notes" = Some (optional_str (notes payload)) /\
    stored !! "status" = Some (VStr "pending") /\
    stored !! "subtotal" = None /\
    stored !! "delivery_fee" = None /\
    dom stored = list_to_set ["_id"; "restaurant_id"; "customer_name"; "phone";
                              "address"; "notes"; "items"; "total"; "status"].
Proof.
  intros Hpay Hok.
  destruct (order_doc_payable py payload Hpay)
    as (t & doc & _ & Hdoc & _ & Hitems & Hrid & Hname & Hphone & Haddr & Hnotes & Hstatus & Hdom).
  exists (<["_id" := VOid (next_oid s)]> doc), (insert_one "order" doc (settle s)).2.
  eexists. split; [by apply create_order_insert_through|].
  split; [by rewrite docs_insert_one|].
  assert (Hdom' : dom (<["_id" := VOid (next_oid s)]> doc)
                  = list_to_set ["_id"; "restaurant_id"; "customer_name"; "phone";
                                 "address"; "notes"; "items"; "total"; "status"]).
  { rewrite dom_insert_L, Hdom. reflexivity. }
  split; [by rewrite lookup_insert_ne|].
  split; [apply Forall_forall; intros i _; apply model_dump_fields|].
  do 6 (split; [by rewrite lookup_insert_ne|]).
  split; [|split; [|done]]; apply not_elem_of_dom; rewrite Hdom'; by vm_compute.
Qed.

Lemma create_order_total_witness :
  payable (items sample_order) = true /\ next_ok empty_store /\
  exists stored s',
    create_order sample_py (Some empty_store) sample_order
    = (Return (VDict (dict [("ok", VBool true);
                            ("order_id", VStr "000000000000000000000000")])), Some s') /\
    docs s' "order" = [stored] /\
    stored !! "total" = Some (VFloat 18.48%float).
Proof.
  assert (Hpay : payable (items sample_order) = true) by (vm_compute; reflexivity).
  assert (Hok : next_ok empty_store) by exact I.
  split; [exact Hpay|]. split; [exact Hok|].
  destruct (create_order_total sample_py empty_store sample_order Hpay)
    as (t & doc & Ht & _ & _ & Hstored & _).
  destruct (Hstored Hok) as (stored & s' & Hrun & Hdocs & Htotal).
  exists stored, s'. split; [exact Hrun|]. split; [exact Hdocs|].
  rewrite Htotal. f_equal.
  assert (Hspec : spec_total sample_py (items sample_order) = Ok (VFloat 18.48%float))
    by (vm_compute; reflexivity).
  rewrite Hspec in Ht. by inversion Ht.
Defined.

Lemma create_order_stores_payload_witness :
  exists stored s',
    (create_order sample_py (Some empty_store) sample_order).2 = Some s' /\
    docs s' "order" = [stored] /\
    stored !! "items" = Some (VList [
      VDict (dict [("item_id", VStr "m1"); ("name", VStr "Classic Burger");
                   ("price", VFloat 9.99%float); ("quantity", VInt 1)]);
      VDict (dict [("item_id", VStr "m2"); ("name", VStr "Veggie Bowl");
                   ("price", VFloat 8.49%float); ("quantity", VInt 0)])]) /\
    stored !! "status" = Some (VStr "pending") /\
    stored !! "subtotal" = None.
Proof.
  assert (Hpay : payable (items sample_order) = true) by (vm_compute; reflexivity).
  assert (Hok : next_ok empty_store) by exact I.
  destruct (create_order_stores_payload sample_py empty_store sample_order Hpay Hok)
    as (stored & s' & o & Hrun & Hdocs & Hitems & _ & _ & _ & _ & _ & _ & Hstatus & Hsub & _).
  exists stored, s'. rewrite Hrun. split; [done|]. split; [exact Hdocs|].
  split; [exact Hitems|]. split; [exact Hstatus|exact Hsub].
Defined.

(** ** Listing restaurants and menus *)

Lemma getitem_Some (d : document) (k : string) (v : value) :
  d !! k = Some v -> getitem d k = Ok v.
Proof. unfold getitem. by intros ->. Qed.

Lemma eq_str_true (v : value) (s : string) : eq_str v s = true <-> v = VStr s.
Proof.
  destruct v; simpl; try (split; [discriminate|by inversion 1]).
  rewrite String.eqb_eq. split; [by intros ->|by inversion 1].
Qed.

Lemma menu_of_filter (l : list document) (rid : string) :
  Forall (fun m => is_Some (m !! "restaurant_id")) l ->
  menu_of l rid = Ok (List.filter (fun m => eq_str (m !!! "restaurant_id") rid) l).
Proof.
  induction 1 as [|m l [v Hv] _ IH]; [done|].
  cbn [menu_of List.filter]. rewrite (getitem_Some _ _ _ Hv), IH.
  cbn [mbind result_bind]. by rewrite (lookup_total_correct _ _ _ Hv).
Qed.

Lemma demo_menu_keys : Forall (fun m => is_Some (m !! "restaurant_id")) DEMO_MENU.
Proof. repeat constructor; by eexists; vm_compute. Qed.

Lemma menu_of_demo (rid : string) : menu_of DEMO_MENU rid = Ok (demo_menu_for rid).
Proof. apply menu_of_filter, demo_menu_keys. Qed.

Lemma demo_menu_for_sound (rid : string) :
  Forall (fun m => m !! "restaurant_id" = Some (VStr rid)) (demo_menu_for rid).
Proof.
  apply Forall_forall. intros m Hm%list_elem_of_In. unfold demo_menu_for in Hm.
  apply filter_In in Hm as [_ Hm]. apply eq_str_true in Hm. unfold lookup_total, map_lookup_total in Hm.
  destruct (m !! "restaurant_id") as [v|]; simpl in Hm; by subst.
Qed.

Lemma demo_menu_for_demo : demo_menu_for "demo-1" = DEMO_MENU.
Proof. vm_compute. reflexivity. Qed.

Lemma demo_menu_for_other (rid : string) : rid ≠ "demo-1" -> demo_menu_for rid = [].
Proof.
  intros H. unfold demo_menu_for.
  assert (Hall : Forall (fun m => m !!! "restaurant_id" = VStr "demo-1") DEMO_MENU)
    by (repeat constructor; vm_compute; reflexivity).
  induction Hall as [|m l Hm _ IH]; [done|].
  cbn [List.filter]. rewrite Hm. cbn [eq_str].
  destruct (String.eqb_spec "demo-1" rid) as [<-|_]; [done|apply IH].
Qed.

Lemma get_documents_through (c : string) (flt : list (string * string)) (s : database) :
  next_ok s -> get_documents c flt s = (Ok (selected s c flt), settle s).
Proof. intros H. unfold get_documents. by rewrite store_call_through. Qed.

Lemma get_documents_fault (c : string) (flt : list (string * string)) (s : database) e fs :
  faults s = Some e :: fs -> get_documents c flt s = (Raise e, with_faults fs s).
Proof. apply store_call_fault. Qed.

Lemma matches_restaurant (rid : string) (d : document) :
  matches [("restaurant_id", rid)] d = true <-> d !! "restaurant_id" = Some (VStr rid).
Proof.
  cbn [matches forallb]. rewrite andb_true_r.
  destruct (d !! "restaurant_id") as [[]|]; try (split; [discriminate|by inversion 1]).
  rewrite String.eqb_eq. split; [by intros ->|by inversion 1].
Qed.

Lemma matches_all (d : document) : matches [] d = true.
Proof. reflexivity. Qed.

Lemma remap_id_Some (py : interpreter) (d : document) (o : value) :
  d !! "_id" = Some o ->
  remap_id py d = Ok (<["id" := VStr (py_str py o)]> (delete "_id" d)).
Proof. unfold remap_id, pop. by intros ->. Qed.

Lemma remap_id_None (py : interpreter) (d : document) :
  d !! "_id" = None -> remap_id py d = Raise (KeyError "_id").
Proof. unfold remap_id, pop. by intros ->. Qed.

Lemma remap_id_inv (py : interpreter) (d d' : document) :
  remap_id py d = Ok d' ->
  exists o, d !! "_id" = Some o /\ d' = <["id" := VStr (py_str py o)]> (delete "_id" d).
Proof.
  destruct (d !! "_id") as [o|] eqn:Ho.
  - rewrite (remap_id_Some _ _ _ Ho). intros [= <-]. eauto.
  - by rewrite (remap_id_None _ _ Ho).
Qed.

Lemma remap_id_keeps (py : interpreter) (d d' : document) (k : string) :
  remap_id py d = Ok d' -> k ≠ "id" -> k ≠ "_id" -> d' !! k = d !! k.
Proof.
  intros (o & _ & ->)%remap_id_inv Hid H_id.
  by rewrite lookup_insert_ne, lookup_delete_ne.
Qed.

Lemma for_each_remap_raise (py : interpreter) (ds : list document) :
  Exists (fun d => d !! "_id" = None) ds ->
  for_each (remap_id py) ds = Raise (KeyError "_id").
Proof.
  induction ds as [|d ds IH]; intros H; [by inversion H|].
  cbn [for_each]. destruct (d !! "_id") as [o|] eqn:Ho.
  - rewrite (remap_id_Some _ _ _ Ho). cbn [mbind result_bind].
    inversion H as [? ? Hd|? ? Hds]; subst; [congruence|]. by rewrite (IH Hds).
  - by rewrite (remap_id_None _ _ Ho).
Qed.

Lemma for_each_remap_keeps (py : interpreter) (ds ds' : list document) (k : string) (v : value) :
  for_each (remap_id py) ds = Ok ds' -> k ≠ "id" -> k ≠ "_id" ->
  Forall (fun d => d !! k = Some v) ds -> Forall (fun d => d !! k = Some v) ds'.
Proof.
  intros H%for_each_Forall2 Hid H_id. induction H as [|d d' ds ds' Hd _ IH]; [done|].
  inversion 1; subst. constructor; [|by apply IH].
  by rewrite (remap_id_keeps _ _ _ _ Hd Hid H_id).
Qed.

Lemma restaurants_from_store_through (py : interpreter) (s : database) :
  next_ok s ->
  restaurants_from_store py s
  = (for_each (remap_id py) (selected s "restaurant" []), settle s).
Proof.
  intros H. unfold restaurants_from_store, bind. by rewrite get_documents_through.
Qed.

Lemma restaurants_from_store_fault (py : interpreter) (s : database) e fs :
  faults s = Some e :: fs -> restaurants_from_store py s = (Raise e, with_faults fs s).
Proof.
  intros H. unfold restaurants_from_store, bind. by rewrite (get_documents_fault _ _ _ _ _ H).
Qed.

Lemma menu_from_store_through (py : interpreter) (rid : string) (s : database) :
  next_ok s ->
  menu_from_store py rid s
  = (for_each (remap_id py) (selected s "menuitem" [("restaurant_id", rid)]), settle s).
Proof.
  intros H. unfold menu_from_store, bind. by rewrite get_documents_through.
Qed.

Lemma menu_from_store_fault (py : interpreter) (rid : string) (s : database) e fs :
  faults s = Some e :: fs -> menu_from_store py rid s = (Raise e, with_faults fs s).
Proof.
  intros H. unfold menu_from_store, bind. by rewrite (get_documents_fault _ _ _ _ _ H).
Qed.

Lemma next_ok_or_fault (s : database) :
  next_ok s \/ exists e fs, faults s = Some e :: fs.
Proof. unfold next_ok. destruct (faults s) as [|[e|] fs]; eauto. Qed.

Lemma list_restaurants_fallback (py : interpreter) (s : database) e s' :
  restaurants_from_store py s = (Raise e, s') ->
  list_restaurants py (Some s) = (Return (as_list [DEMO_RESTAURANT]), Some s').
Proof. unfold list_restaurants. by intros ->. Qed.

Lemma list_menu_fallback (py : interpreter) (s : database) (rid : string) e s' :
  menu_from_store py rid s = (Raise e, s') ->
  list_menu py (Some s) rid = (Return (as_list (demo_menu_for rid)), Some s').
Proof. unfold list_menu. intros ->. by rewrite menu_of_demo. Qed.

Lemma list_restaurants_returns (py : interpreter) (db : option database) :
  exists ds db', list_restaurants py db = (Return (as_list ds), db').
Proof.
  destruct db as [s|]; [|by eexists _, _].
  unfold list_restaurants. destruct (restaurants_from_store py s) as [[ds|e] s']; eauto.
Qed.

Lemma list_menu_returns (py : interpreter) (db : option database) (rid : string) :
  exists ms db', list_menu py db rid = (Return (as_list ms), db').
Proof.
  destruct db as [s|]; unfold list_menu; [|rewrite menu_of_demo; by eexists _, _].
  destruct (menu_from_store py rid s) as [[ds|e] s']; [by eexists _, _|].
  rewrite menu_of_demo. by eexists _, _.
Qed.

Lemma selected_spec (s : database) (c : string) (rid : string) (d : document) :
  d ∈ selected s c [("restaurant_id", rid)]
  <-> d ∈ docs s c /\ d !! "restaurant_id" = Some (VStr rid).
Proof.
  unfold selected. rewrite !list_elem_of_In, filter_In. by rewrite matches_restaurant.
Qed.

Lemma selected_none (s : database) (c : string) (rid : string) :
  (forall d, d ∈ docs s c -> d !! "restaurant_id" ≠ Some (VStr rid)) ->
  selected s c [("restaurant_id", rid)] = [].
Proof.
  intros H. destruct (selected s c [("restaurant_id", rid)]) as [|d l] eqn:Hsel; [done|].
  assert (Hd : d ∈ selected s c [("restaurant_id", rid)]) by (rewrite Hsel; left).
  apply selected_spec in Hd as [Hd Hr]. by destruct (H d Hd).
Qed.

Lemma for_each_remap_total (py : interpreter) (ds : list document) :
  Forall (fun d => is_Some (d !! "_id")) ds ->
  exists ms, for_each (remap_id py) ds = Ok ms.
Proof.
  induction 1 as [|d ds [o Ho] _ [ms IH]]; [by exists []|].
  cbn [for_each]. rewrite (remap_id_Some _ _ _ Ho), IH. by eexists.
Qed.

(** C3. [list_restaurants] and [list_menu] return normally, with status
    200, for every state of the store: whenever the query or the
    remapping of the identity field raises (a store call that fails, a
    document without [_id]), the handler returns the demo restaurant, or
    the demo menu filtered by [restaurant_id]. *)
Theorem list_endpoints_never_raise (py : interpreter) (db : option database) (rid : string) :
  status (list_restaurants py db).1 = 200 /\
  status (list_menu py db rid).1 = 200 /\
  (forall s e s', db = Some s -> restaurants_from_store py s = (Raise e, s') ->
     list_restaurants py db = (Return (as_list [DEMO_RESTAURANT]), Some s')) /\
  (forall s e s', db = Some s -> menu_from_store py rid s = (Raise e, s') ->
     list_menu py db rid = (Return (as_list (demo_menu_for rid)), Some s')) /\
  (forall s e fs, db = Some s -> faults s = Some e :: fs ->
     list_restaurants py db
     = (Return (as_list [DEMO_RESTAURANT]), Some (with_faults fs s)) /\
     list_menu py db rid
     = (Return (as_list (demo_menu_for rid)), Some (with_faults fs s))) /\
  (forall s, db = Some s -> next_ok s ->
     (Exists (fun d => d !! "_id" = None) (selected s "restaurant" []) ->
      list_restaurants py db = (Return (as_list [DEMO_RESTAURANT]), Some (settle s))) /\
     (Exists (fun d => d !! "_id" = None) (selected s "menuitem" [("restaurant_id", rid)]) ->
      list_menu py db rid = (Return (as_list (demo_menu_for rid)), Some (settle s)))).
Proof.
  split; [by destruct (list_restaurants_returns py db) as (ds & db' & ->)|].
  split; [by destruct (list_menu_returns py db rid) as (ms & db' & ->)|].
  split; [intros s e s' -> H; by eapply list_restaurants_fallback|].
  split; [intros s e s' -> H; by eapply list_menu_fallback|].
  split.
  - intros s e fs -> Hf. split.
    + eapply list_restaurants_fallback. by apply restaurants_from_store_fault.
    + eapply list_menu_fallback. by apply menu_from_store_fault.
  - intros s -> Hok. split; intros Hex.
    + eapply list_restaurants_fallback.
      by rewrite (restaurants_from_store_through _ _ Hok), (for_each_remap_raise _ _ Hex).
    + eapply list_menu_fallback.
      by rewrite (menu_from_store_through _ _ _ Hok), (for_each_remap_raise _ _ Hex).
Qed.

Lemma list_endpoints_never_raise_witness :
  list_restaurants sample_py (Some unreachable_store)
  = (Return (as_list [DEMO_RESTAURANT]), Some (with_faults [] unreachable_store)) /\
  list_menu sample_py (Some unreachable_store) "demo-1"
  = (Return (as_list DEMO_MENU), Some (with_faults [] unreachable_store)) /\
  list_restaurants sample_py (Some odd_store)
  = (Return (as_list [DEMO_RESTAURANT]), Some (settle odd_store)) /\
  list_menu sample_py (Some odd_store) "r1" = (Return (as_list []), Some (settle odd_store)).
Proof.
  destruct (list_endpoints_never_raise sample_py (Some unreachable_store) "demo-1")
    as (_ & _ & _ & _ & Hfault & _).
  destruct (Hfault unreachable_store _ _ eq_refl eq_refl) as [Hr Hm].
  destruct (list_endpoints_never_raise sample_py (Some odd_store) "r1")
    as (_ & _ & _ & _ & _ & Hodd).
  destruct (Hodd odd_store eq_refl I) as [Hr' Hm'].
  split; [exact Hr|]. split; [exact Hm|].
  split; [apply Hr'|apply Hm']; apply Exists_cons_hd; vm_compute; reflexivity.
Defined.

(** C6. [list_menu] returns menu items whose [restaurant_id] is the
    requested string, and all of them: in demo mode the demo menu
    filtered by that string (empty for any other id than the demo
    restaurant's); in store-backed mode the stored menu items whose
    [restaurant_id] is that string, each with its identity remapped
    (empty when no stored item has it). No id makes it fail. *)
Theorem list_menu_filters (py : interpreter) (db : option database) (rid : string) :
  (exists ms db', list_menu py db rid = (Return (as_list ms), db') /\
     Forall (fun m => m !! "restaurant_id" = Some (VStr rid)) ms) /\
  list_menu py None rid = (Return (as_list (demo_menu_for rid)), None) /\
  (forall m, m ∈ demo_menu_for rid
     <-> m ∈ DEMO_MENU /\ m !! "restaurant_id" = Some (VStr rid)) /\
  (rid ≠ "demo-1" -> list_menu py None rid = (Return (as_list []), None)) /\
  (forall s, db = Some s -> next_ok s ->
     Forall (fun d => is_Some (d !! "_id")) (selected s "menuitem" [("restaurant_id", rid)]) ->
     exists ms,
       list_menu py db rid = (Return (as_list ms), Some (settle s)) /\
       Forall2 (fun d m => remap_id py d = Ok m)
         (selected s "menuitem" [("restaurant_id", rid)]) ms) /\
  (forall s d, d ∈ selected s "menuitem" [("restaurant_id", rid)]
     <-> d ∈ docs s "menuitem" /\ d !! "restaurant_id" = Some (VStr rid)) /\
  (forall s, db = Some s -> next_ok s ->
     (forall d, d ∈ docs s "menuitem" -> d !! "restaurant_id" ≠ Some (VStr rid)) ->
     list_menu py db rid = (Return (as_list []), Some (settle s))).
Proof.
  split.
  { destruct db as [s|]; unfold list_menu.
    - destruct (menu_from_store py rid s) as [[ms|e] s'] eqn:Hrun.
      + eexists _, _. split; [done|].
        destruct (next_ok_or_fault s) as [Hok|(e & fs & Hf)].
        * rewrite (menu_from_store_through _ _ _ Hok) in Hrun.
          injection Hrun as Hrun _.
          eapply for_each_remap_keeps; [exact Hrun|done|done|].
          apply Forall_forall. by intros d [_ Hd]%selected_spec.
        * by rewrite (menu_from_store_fault _ _ _ _ _ Hf) in Hrun.
      + rewrite menu_of_demo. eexists _, _. split; [done|apply demo_menu_for_sound].
    - rewrite menu_of_demo. eexists _, _. split; [done|apply demo_menu_for_sound]. }
  split; [unfold list_menu; by rewrite menu_of_demo|].
  split.
  { intros m. unfold demo_menu_for. rewrite !list_elem_of_In, filter_In, eq_str_true.
    split; intros [Hin Hm]; (split; [done|]).
    - unfold lookup_total, map_lookup_total in Hm.
      destruct (m !! "restaurant_id") as [v|]; simpl in Hm; by subst.
    - by rewrite (lookup_total_correct _ _ _ Hm). }
  split; [intros H; unfold list_menu; by rewrite menu_of_demo, (demo_menu_for_other _ H)|].
  split.
  { intros s -> Hok Hids. destruct (for_each_remap_total py _ Hids) as [ms Hms].
    exists ms. unfold list_menu. rewrite (menu_from_store_through _ _ _ Hok), Hms.
    split; [done|]. by apply for_each_Forall2. }
  split; [intros s d; apply selected_spec|].
  intros s -> Hok Hnone. unfold list_menu.
  by rewrite (menu_from_store_through _ _ _ Hok), (selected_none _ _ _ Hnone).
Qed.

Lemma list_menu_filters_witness :
  list_menu sample_py (Some stocked_store) "r1"
  = (Return (as_list [
       dict [("id", VStr "000000000000000000000001"); ("restaurant_id", VStr "r1");
             ("name", VStr "Soup")];
       dict [("id", VStr "000000000000000000000003"); ("restaurant_id", VStr "r1");
             ("name", VStr "Stew")]]), Some (settle stocked_store)) /\
  list_menu sample_py (Some stocked_store) "nonexistent-id"
  = (Return (as_list []), Some (settle stocked_store)) /\
  list_menu sample_py None "nonexistent-id" = (Return (as_list []), None).
Proof.
  destruct (list_menu_filters sample_py (Some stocked_store) "r1")
    as (_ & _ & _ & _ & Hstore & _ & _).
  destruct (Hstore stocked_store eq_refl I) as (ms & Hrun & Hms).
  { repeat constructor; by eexists; vm_compute. }
  destruct (list_menu_filters sample_py (Some stocked_store) "nonexistent-id")
    as (_ & _ & _ & Hdemo & _ & _ & Hnone).
  split; [|split; [apply (Hnone stocked_store eq_refl I)|by apply Hdemo]].
  - rewrite Hrun. do 3 f_equal.
    apply for_each_Forall2 in Hms. vm_compute in Hms. by inversion Hms.
  - intros d Hd. vm_compute in Hd.
    repeat (apply elem_of_cons in Hd as [->|Hd]; [by vm_compute|]).
    by apply elem_of_nil in Hd.
Defined.

(** ** Demo mode *)

(** C5, as stated, fails: in demo mode an order for [2^1024] burgers, a
    structurally valid payload, is answered with status 500 and not with
    the placeholder order identity, because the total is computed before
    the handler looks at [db]. *)
Lemma demo_order_overflow :
  create_order sample_py None huge_order
  = (HTTPException 500 "int too large to convert to float", None) /\
  (create_order sample_py None huge_order).1 ≠ Return demo_ack /\
  status (create_order sample_py None huge_order).1 = 500.
Proof. split; [by vm_compute|]. split; [by vm_compute|by vm_compute]. Qed.

Lemma create_order_demo (py : interpreter) (payload : OrderPayload) :
  payable (items payload) = true -> create_order py None payload = (Return demo_ack, None).
Proof.
  intros H. destruct (order_doc_payable py payload H) as (t & doc & _ & Hdoc & _).
  unfold create_order. by rewrite Hdoc.
Qed.

(** C5, amended. In demo mode [list_restaurants] returns exactly the demo
    restaurant, whose id is ["demo-1"], [list_menu("demo-1")] returns
    exactly the 3 demo items, and [create_order] returns
    [{ok: true, order_id: "demo-order-1"}] and persists nothing for
    every payload whose effective quantities are in the range of
    [float]. *)
Theorem demo_mode (py : interpreter) (payload : OrderPayload) :
  payable (items payload) = true ->
  list_restaurants py None = (Return (as_list [DEMO_RESTAURANT]), None) /\
  DEMO_RESTAURANT !! "id" = Some (VStr "demo-1") /\
  (exists m1 m2 m3,
     list_menu py None "demo-1" = (Return (as_list [m1; m2; m3]), None) /\
     DEMO_MENU = [m1; m2; m3]) /\
  create_order py None payload = (Return demo_ack, None).
Proof.
  intros H. split; [done|]. split; [by vm_compute|]. split.
  - eexists _, _, _. unfold list_menu. rewrite menu_of_demo, demo_menu_for_demo. done.
  - by apply create_order_demo.
Qed.

Lemma demo_mode_witness :
  payable (items sample_order) = true /\
  create_order sample_py None sample_order = (Return demo_ack, None) /\
  list_restaurants sample_py None = (Return (as_list [DEMO_RESTAURANT]), None).
Proof.
  assert (Hpay : payable (items sample_order) = true) by (vm_compute; reflexivity).
  destruct (demo_mode sample_py sample_order Hpay) as (Hr & _ & _ & Hc).
  split; [exact Hpay|]. split; [exact Hc|exact Hr].
Defined.

(** ** Seeding *)

Lemma count_documents_through (c : string) (s : database) :
  next_ok s -> count_documents c s = (Ok (Z.of_nat (length (docs s c))), settle s).
Proof. intros H. unfold count_documents. by rewrite store_call_through. Qed.

Lemma fault_free_insert_one (c : string) (data : document) (s : database) :
  fault_free s -> fault_free (insert_one c data s).2.
Proof. done. Qed.

Lemma for_insert_through (c : string) (f : document -> document) (l : list document)
    (s : database) :
  fault_free s ->
  for_ (fun itm => _ <- create_document c (f itm) ;; ret tt)%store l s
  = (Ok tt, fold_left (fun st itm => (insert_one c (f itm) (settle st)).2) l s).
Proof.
  revert s. induction l as [|itm l IH]; intros s Hs; [done|].
  cbn [for_ fold_left]. unfold bind at 1. unfold bind at 1.
  rewrite (create_document_through _ _ _ (fault_free_next_ok _ Hs)).
  unfold ret at 1. apply IH. by apply fault_free_insert_one, fault_free_settle.
Qed.

Lemma demo_restaurant_fields :
  getitem DEMO_RESTAURANT "name" = Ok (VStr "SnackSprint Diner") /\
  getitem DEMO_RESTAURANT "description" = Ok (VStr "Burgers, bowls and bites delivered fast") /\
  getitem DEMO_RESTAURANT "image"
  = Ok (VStr "https://images.unsplash.com/photo-1550547660-d9450f859349?w=1200") /\
  getitem DEMO_RESTAURANT "cuisine" = Ok (VStr "American") /\
  getitem DEMO_RESTAURANT "rating" = Ok (VFloat 4.7%float) /\
  dict [("name", VStr "SnackSprint Diner");
        ("description", VStr "Burgers, bowls and bites delivered fast");
        ("image", VStr "https://images.unsplash.com/photo-1550547660-d9450f859349?w=1200");
        ("cuisine", VStr "American");
        ("rating", VFloat 4.7%float)] = seed_restaurant.
Proof. repeat split; vm_compute; reflexivity. Qed.

(** The part of [seed_body] that runs when no restaurant was counted. *)
Lemma seed_body_unfold (s : database) (truthy : bool) :
  db_bool s = Ok truthy ->
  seed_body s
  = (restaurants <- (if truthy then count_documents "restaurant" else ret 0) ;;
     (if restaurants =? 0 then
        rid <- create_document "restaurant" seed_restaurant ;;
        for_ (fun itm => _ <- create_document "menuitem" (seed_item rid itm) ;; ret tt)
          DEMO_MENU
      else ret tt) ;;;
     ret seed_ack)%store s.
Proof.
  intros Hb. unfold seed_body. unfold bind at 1. unfold truth. rewrite Hb.
  destruct demo_restaurant_fields as (Hn & Hd & Hi & Hc & Hr & Hdoc).
  rewrite Hn, Hd, Hi, Hc, Hr. unfold lift, bind. rewrite Hdoc. reflexivity.
Qed.

Lemma seed_body_fresh (s : database) :
  db_bool s = Ok true -> fault_free s -> docs s "restaurant" = [] ->
  seed_body s = (Ok seed_ack, seeded s).
Proof.
  intros Hb Hs Hnone. rewrite (seed_body_unfold _ _ Hb). unfold bind at 1.
  rewrite (count_documents_through _ _ (fault_free_next_ok _ Hs)), Hnone.
  change (Z.of_nat (length []) =? 0) with true. cbv iota beta.
  assert (Hs' : fault_free (settle s)) by by apply fault_free_settle.
  unfold bind at 1. unfold bind at 1.
  rewrite (create_document_through _ _ _ (fault_free_next_ok _ Hs')).
  rewrite for_insert_through
    by by apply fault_free_insert_one, fault_free_settle.
  reflexivity.
Qed.

Lemma seed_body_existing (s : database) :
  db_bool s = Ok true -> next_ok s -> docs s "restaurant" ≠ [] ->
  seed_body s = (Ok seed_ack, settle s).
Proof.
  intros Hb Hs Hsome. rewrite (seed_body_unfold _ _ Hb). unfold bind at 1.
  rewrite (count_documents_through _ _ Hs).
  destruct (docs s "restaurant") as [|d ds]; [done|]. reflexivity.
Qed.

Lemma seeded_restaurants (s : database) :
  docs (seeded s) "restaurant"
  = (docs s "restaurant" ++ [<["_id" := VOid (next_oid s)]> seed_restaurant])%list.
Proof.
  unfold seeded, DEMO_MENU. cbn [fold_left].
  repeat (rewrite docs_insert_one_ne by done; rewrite docs_settle).
  by rewrite docs_insert_one.
Qed.

Lemma seeded_menu (s : database) :
  docs (seeded s) "menuitem"
  = (docs s "menuitem"
     ++ ((fun '(k, itm) => <["_id" := VOid (next_oid s + k)%N]>
                             (seed_item (oid_str (next_oid s)) itm))
         <$> zip [1; 2; 3]%N DEMO_MENU))%list.
Proof.
  unfold seeded, DEMO_MENU. cbn [fold_left zip zip_with fmap list_fmap].
  repeat (rewrite docs_insert_one, docs_settle).
  rewrite docs_insert_one_ne by done. rewrite !docs_settle.
  cbn [next_oid insert_one settle with_faults snd].
  rewrite <- !app_assoc. cbn [app].
  replace (N.succ (next_oid s)) with (next_oid s + 1)%N by lia.
  replace (N.succ (next_oid s + 1)) with (next_oid s + 2)%N by lia.
  replace (N.succ (next_oid s + 2)) with (next_oid s + 3)%N by lia.
  reflexivity.
Qed.

Lemma seeded_other (s : database) (c : string) :
  c ≠ "restaurant" -> c ≠ "menuitem" -> docs (seeded s) c = docs s c.
Proof.
  intros Hr Hm. unfold seeded, DEMO_MENU. cbn [fold_left].
  by repeat (rewrite docs_insert_one_ne by done; rewrite docs_settle).
Qed.

Lemma seeded_next_oid (s : database) : next_oid (seeded s) = (next_oid s + 4)%N.
Proof. unfold seeded, DEMO_MENU. cbn. lia. Qed.

Lemma seeded_db_bool (s : database) : db_bool (seeded s) = db_bool s.
Proof. reflexivity. Qed.

Lemma seeded_fault_free (s : database) : fault_free s -> fault_free (seeded s).
Proof.
  intros H. unfold seeded, DEMO_MENU. cbn [fold_left].
  repeat (first [apply fault_free_insert_one | apply fault_free_settle]). done.
Qed.

Lemma seed_demo_data_fresh (s : database) :
  db_bool s = Ok true -> fault_free s -> docs s "restaurant" = [] ->
  seed_demo_data (Some s) = (Return seed_ack, Some (seeded s)).
Proof.
  intros Hb Hs Hnone. unfold seed_demo_data, or_500.
  by rewrite (seed_body_fresh _ Hb Hs Hnone).
Qed.

Lemma seed_demo_data_existing (s : database) :
  db_bool s = Ok true -> next_ok s -> docs s "restaurant" ≠ [] ->
  seed_demo_data (Some s) = (Return seed_ack, Some (settle s)).
Proof.
  intros Hb Hs Hsome. unfold seed_demo_data, or_500.
  by rewrite (seed_body_existing _ Hb Hs Hsome).
Qed.

(** C2. The existence check of [seed_demo_data] tests the handle's
    truth ([... if db else 0]) where the lines above it compare with
    [None], and the claim breaks on every handle whose truth test does not
    give [True]. A handle that refuses the test, as a MongoDB database
    handle does, makes every seed answer status 500 with nothing
    inserted: after two seeds of an empty store there is no restaurant,
    not one. A handle that counts as false is never asked for the count:
    the second seed finds one restaurant stored and inserts another, with
    three more menu items. *)
Lemma seed_truth_test_breaks_idempotence :
  (docs no_truth_store "restaurant" = [] /\
   seed_demo_data (Some no_truth_store)
   = (HTTPException 500 "Database objects do not implement truth value testing",
      Some no_truth_store) /\
   docs no_truth_store "menuitem" = []) /\
  (exists s1 s2,
     seed_demo_data (Some falsy_store) = (Return seed_ack, Some s1) /\
     length (docs s1 "restaurant") = 1%nat /\
     length (docs s1 "menuitem") = 3%nat /\
     seed_demo_data (Some s1) = (Return seed_ack, Some s2) /\
     length (docs s2 "restaurant") = 2%nat /\
     length (docs s2 "menuitem") = 6%nat).
Proof.
  split; [repeat split; by vm_compute|].
  eexists _, _. split; [by vm_compute|]. split; [by vm_compute|]. split; [by vm_compute|].
  split; [by vm_compute|]. split; by vm_compute.
Qed.

(** X15. With a handle that counts as true and no store call failing,
    seeding is idempotent: a seed that finds a restaurant inserts
    nothing, and two seeds in a row leave the store as one seed does:
    starting without restaurants, exactly one restaurant and the three
    demo items have been inserted after both, four identities assigned in
    all. *)
Theorem seed_idempotent (s : database) :
  db_bool s = Ok true -> fault_free s ->
  exists s1 s2,
    seed_demo_data (Some s) = (Return seed_ack, Some s1) /\
    seed_demo_data (Some s1) = (Return seed_ack, Some s2) /\
    collections s2 = collections s1 /\
    next_oid s2 = next_oid s1 /\
    (docs s "restaurant" ≠ [] ->
       collections s1 = collections s /\ next_oid s1 = next_oid s) /\
    (docs s "restaurant" = [] ->
       length (docs s2 "restaurant") = 1%nat /\
       length (docs s2 "menuitem") = (length (docs s "menuitem") + 3)%nat /\
       (forall c, c ≠ "restaurant" -> c ≠ "menuitem" -> docs s2 c = docs s c) /\
       next_oid s2 = (next_oid s + 4)%N).
Proof.
  intros Hb Hs.
  destruct (docs s "restaurant") as [|r rs] eqn:Hdocs.
  - exists (seeded s), (settle (seeded s)).
    split; [by apply seed_demo_data_fresh|].
    assert (Hnow : docs (seeded s) "restaurant" ≠ [])
      by (rewrite seeded_restaurants, Hdocs; discriminate).
    split.
    { apply seed_demo_data_existing; [done| |done].
      by apply fault_free_next_ok, seeded_fault_free. }
    split; [done|]. split; [done|]. split; [done|]. intros _.
    rewrite !docs_settle. split; [by rewrite seeded_restaurants, Hdocs|].
    split; [rewrite seeded_menu, length_app; reflexivity|].
    split; [intros c Hr Hm; by rewrite docs_settle, seeded_other|].
    apply seeded_next_oid.
  - assert (Hsome : docs s "restaurant" ≠ []) by (rewrite Hdocs; discriminate).
    exists (settle s), (settle (settle s)).
    split; [apply seed_demo_data_existing; [done|by apply fault_free_next_ok|done]|].
    split.
    { apply seed_demo_data_existing; [done| |by rewrite docs_settle].
      by apply fault_free_next_ok, fault_free_settle. }
    split; [done|]. split; [done|]. split; [done|]. intros [=].
Qed.

Lemma seed_idempotent_witness :
  exists s1 s2,
    seed_demo_data (Some empty_store) = (Return seed_ack, Some s1) /\
    seed_demo_data (Some s1) = (Return seed_ack, Some s2) /\
    collections s2 = collections s1 /\
    length (docs s2 "restaurant") = 1%nat /\
    length (docs s2 "menuitem") = 3%nat.
Proof.
  assert (Hfree : fault_free empty_store) by constructor.
  destruct (seed_idempotent empty_store eq_refl Hfree)
    as (s1 & s2 & H1 & H2 & Hsame & _ & _ & Hfresh).
  destruct (Hfresh eq_refl) as (Hr & Hm & _).
  exists s1, s2. repeat split; done.
Defined.

Lemma seed_item_fields (rest_id : string) (itm : document) (o : N) :
  let d := <["_id" := VOid o]> (seed_item rest_id itm) in
  d !! "restaurant_id" = Some (VStr rest_id) /\
  d !! "id" = None /\
  d !! "_id" = Some (VOid o) /\
  (forall k, k ≠ "_id" -> k ≠ "restaurant_id" -> k ≠ "id" -> d !! k = itm !! k).
Proof.
  unfold seed_item. cbv zeta. split; [by rewrite lookup_insert_ne, lookup_insert_eq|].
  split; [by rewrite !lookup_insert_ne, lookup_delete_eq|].
  split; [by rewrite lookup_insert_eq|].
  intros k H1 H2 H3. by rewrite !lookup_insert_ne, lookup_delete_ne.
Qed.

(** C7. After a seed that inserts (store-backed mode, no restaurant yet,
    no store call failing), the store holds the restaurant under the
    identity it was assigned, and every menu item inserted by the call
    has that identity, in the string form that [list_restaurants] shows
    as the restaurant's [id], for its [restaurant_id]; the demo [id] key
    is gone and the other fields are the demo item's. *)
Theorem seed_references (py : interpreter) (s : database) :
  db_bool s = Ok true -> fault_free s -> docs s "restaurant" = [] ->
  exists s1 r r' new,
    seed_demo_data (Some s) = (Return seed_ack, Some s1) /\
    docs s1 "restaurant" = [r] /\
    r !! "_id" = Some (VOid (next_oid s)) /\
    remap_id py r = Ok r' /\
    r' !! "id" = Some (VStr (oid_str (next_oid s))) /\
    docs s1 "menuitem" = (docs s "menuitem" ++ new)%list /\
    Forall2 (fun itm d =>
      d !! "restaurant_id" = Some (VStr (oid_str (next_oid s))) /\
      d !! "id" = None /\
      (forall k, k ≠ "_id" -> k ≠ "restaurant_id" -> k ≠ "id" -> d !! k = itm !! k))
      DEMO_MENU new.
Proof.
  intros Hb Hs Hnone.
  exists (seeded s), (<["_id" := VOid (next_oid s)]> seed_restaurant).
  eexists. eexists.
  split; [by apply seed_demo_data_fresh|].
  split; [by rewrite seeded_restaurants, Hnone|].
  split; [by rewrite lookup_insert_eq|].
  split; [apply remap_id_Some; by rewrite lookup_insert_eq|].
  split; [by rewrite lookup_insert_eq|].
  split; [apply seeded_menu|].
  unfold DEMO_MENU. cbn [zip zip_with fmap list_fmap].
  repeat constructor;
    try (intros k H1 H2 H3); by eapply seed_item_fields.
Qed.

Lemma seed_references_witness :
  exists s1 r a b c,
    seed_demo_data (Some empty_store) = (Return seed_ack, Some s1) /\
    docs s1 "restaurant" = [r] /\
    r !! "_id" = Some (VOid 0) /\
    docs s1 "menuitem" = [a; b; c] /\
    a !! "restaurant_id" = Some (VStr "000000000000000000000000") /\
    b !! "restaurant_id" = Some (VStr "000000000000000000000000") /\
    c !! "restaurant_id" = Some (VStr "000000000000000000000000") /\
    a !! "id" = None.
Proof.
  assert (Hfree : fault_free empty_store) by constructor.
  destruct (seed_references sample_py empty_store eq_refl Hfree eq_refl)
    as (s1 & r & r' & new & Hrun & Hr & Hid & _ & _ & Hmenu & Hnew).
  inversion Hnew as [|m1 a l1 new1 (Ha & Haid & _) Hnew1]; subst.
  inversion Hnew1 as [|m2 b l2 new2 (Hb & _) Hnew2]; subst.
  inversion Hnew2 as [|m3 c l3 new3 (Hc & _) Hnew3]; subst.
  inversion Hnew3; subst.
  exists s1, r, a, b, c. repeat split; done.
Defined.

(** ** Failing writes *)

Lemma fault_at_O (e : exn) (s : database) :
  fault_at 0 e s -> exists fs, faults s = Some e :: fs.
Proof. intros [rest H]. by exists rest. Qed.

Lemma fault_at_S (k : nat) (e : exn) (s : database) :
  fault_at (S k) e s -> next_ok s /\ fault_at k e (settle s).
Proof.
  intros [rest H]. unfold next_ok, fault_at. cbn [settle with_faults faults].
  rewrite H. split; [done|]. by exists rest.
Qed.

Lemma fault_at_insert_one (k : nat) (e : exn) (c : string) (data : document) (s : database) :
  fault_at k e s -> fault_at k e (insert_one c data s).2.
Proof. done. Qed.

Lemma create_document_fault_at (c : string) (data : document) (e : exn) (s : database) :
  fault_at 0 e s -> exists s', create_document c data s = (Raise e, s').
Proof.
  intros [fs H]%fault_at_O. eexists. unfold create_document.
  by rewrite (store_call_fault _ _ _ _ H).
Qed.

Lemma for_insert_fault (c : string) (f : document -> document) (l : list document)
    (k : nat) (e : exn) (s : database) :
  fault_at k e s -> (k < length l)%nat ->
  exists s',
    for_ (fun itm => _ <- create_document c (f itm) ;; ret tt)%store l s = (Raise e, s').
Proof.
  revert k s. induction l as [|itm l IH]; intros k s Hk Hlen; [simpl in Hlen; lia|].
  cbn [for_]. unfold bind at 1. unfold bind at 1. destruct k as [|k].
  - destruct (create_document_fault_at c (f itm) e s Hk) as [s' ->]. by exists s'.
  - apply fault_at_S in Hk as [Hok Hk].
    rewrite (create_document_through _ _ _ Hok). unfold ret at 1.
    apply (IH k); [by apply fault_at_insert_one|simpl in Hlen; lia].
Qed.

Lemma seed_body_check_fault (s : database) e fs :
  db_bool s = Ok true -> faults s = Some e :: fs ->
  seed_body s = (Raise e, with_faults fs s).
Proof.
  intros Hb Hf. rewrite (seed_body_unfold _ _ Hb). unfold bind at 1.
  unfold count_documents. by rewrite (store_call_fault _ _ _ _ Hf).
Qed.

Lemma seed_body_insert_fault (s : database) (k : nat) e :
  db_bool s = Ok true -> docs s "restaurant" = [] ->
  fault_at (S k) e s -> (k <= length DEMO_MENU)%nat ->
  exists s', seed_body s = (Raise e, s').
Proof.
  intros Hb Hnone [Hok Hk]%fault_at_S Hlen.
  rewrite (seed_body_unfold _ _ Hb). unfold bind at 1.
  rewrite (count_documents_through _ _ Hok), Hnone.
  change (Z.of_nat (length []) =? 0) with true. cbv iota beta.
  unfold bind at 1. unfold bind at 1. destruct k as [|k].
  - destruct (create_document_fault_at "restaurant" seed_restaurant e _ Hk) as [s' ->].
    by exists s'.
  - apply fault_at_S in Hk as [Hok' Hk].
    rewrite (create_document_through _ _ _ Hok').
    destruct (for_insert_fault "menuitem" (seed_item (oid_str (next_oid (settle s))))
                DEMO_MENU k e _ (fault_at_insert_one _ _ "restaurant" seed_restaurant _ Hk))
      as [s' ->]; [lia|].
    by exists s'.
Qed.

(** C4. A failing write is answered with status 500 and the text of the
    exception, never with a success: in [seed_demo_data], whether the
    truth test of the handle, the existence check or any of the inserts
    raises; in [create_order], whether the total computation raises or
    the insert does. *)
Theorem failed_writes_are_500 (py : interpreter) (s : database) (payload : OrderPayload) :
  (forall e, db_bool s = Raise e ->
     seed_demo_data (Some s) = (HTTPException 500 (exn_str e), Some s)) /\
  (forall e fs, db_bool s = Ok true -> faults s = Some e :: fs ->
     seed_demo_data (Some s) = (HTTPException 500 (exn_str e), Some (with_faults fs s))) /\
  (forall k e, db_bool s = Ok true -> docs s "restaurant" = [] ->
     fault_at (S k) e s -> (k <= length DEMO_MENU)%nat ->
     exists s', seed_demo_data (Some s) = (HTTPException 500 (exn_str e), Some s')) /\
  (forall db e, order_doc py payload = Raise e ->
     create_order py db payload = (HTTPException 500 (exn_str e), db)) /\
  (forall db, payable (items payload) = false ->
     create_order py db payload
     = (HTTPException 500 "int too large to convert to float", db)) /\
  (forall doc e fs, order_doc py payload = Ok doc -> faults s = Some e :: fs ->
     create_order py (Some s) payload
     = (HTTPException 500 (exn_str e), Some (with_faults fs s))).
Proof.
  split.
  { intros e Hb. unfold seed_demo_data, or_500, seed_body, bind, truth. by rewrite Hb. }
  split.
  { intros e fs Hb Hf. unfold seed_demo_data, or_500.
    by rewrite (seed_body_check_fault _ _ _ Hb Hf). }
  split.
  { intros k e Hb Hnone Hk Hlen.
    destruct (seed_body_insert_fault s k e Hb Hnone Hk Hlen) as [s' Hrun].
    exists s'. unfold seed_demo_data, or_500. by rewrite Hrun. }
  split; [intros db e; apply create_order_raise|].
  split.
  { intros db H. by rewrite (create_order_raise _ _ _ _ (order_doc_overflow _ _ H)). }
  intros doc e fs. apply create_order_insert_fault.
Qed.

Lemma failed_writes_are_500_witness :
  seed_demo_data (Some no_truth_store)
  = (HTTPException 500 "Database objects do not implement truth value testing",
     Some no_truth_store) /\
  seed_demo_data (Some (flaky_store 0))
  = (HTTPException 500 "connection closed", Some (with_faults [] (flaky_store 0))) /\
  (exists s', seed_demo_data (Some (flaky_store 3))
              = (HTTPException 500 "connection closed", Some s')) /\
  create_order sample_py (Some empty_store) huge_order
  = (HTTPException 500 "int too large to convert to float", Some empty_store) /\
  create_order sample_py (Some (flaky_store 0)) sample_order
  = (HTTPException 500 "connection closed", Some (with_faults [] (flaky_store 0))).
Proof.
  destruct (failed_writes_are_500 sample_py no_truth_store sample_order) as (Hbool & _).
  destruct (failed_writes_are_500 sample_py (flaky_store 0) sample_order)
    as (_ & Hcheck & _ & _ & _ & Hinsert).
  destruct (failed_writes_are_500 sample_py (flaky_store 3) sample_order)
    as (_ & _ & Hseed & _).
  destruct (failed_writes_are_500 sample_py empty_store huge_order)
    as (_ & _ & _ & _ & Htotal & _).
  split; [exact (Hbool _ eq_refl)|].
  split; [exact (Hcheck _ _ eq_refl eq_refl)|].
  split.
  { apply (Hseed 2%nat ConnectionClosed eq_refl eq_refl); [by exists []|].
    vm_compute. lia. }
  split; [apply Htotal; vm_compute; reflexivity|].
  destruct (order_doc_payable sample_py sample_order) as (t & doc & _ & Hdoc & _);
    [vm_compute; reflexivity|].
  exact (Hinsert doc _ _ Hdoc eq_refl).
Defined.

(** ** Store-assigned identities *)

Lemma oid_of_str_zeros (k : nat) (x : string) :
  oid_of_str (zeros k ++ x) = oid_of_str x.
Proof. unfold oid_of_str. induction k as [|k IH]; [done|]. cbn. exact IH. Qed.

Lemma oid_of_str_oid_str (o : N) : oid_of_str (oid_str o) = o.
Proof.
  unfold oid_str. rewrite oid_of_str_zeros. destruct o as [|p]; [done|].
  unfold oid_of_str. by rewrite HexString.Raw.to_N_of_pos.
Qed.

Lemma oid_str_inj (a b : N) : oid_str a = oid_str b -> a = b.
Proof.
  intros H. rewrite <- (oid_of_str_oid_str a), <- (oid_of_str_oid_str b). by rewrite H.
Qed.

Lemma oid_str_nonempty (o : N) : oid_str o ≠ "".
Proof.
  intros H. assert (Ho : o = 0%N).
  { rewrite <- (oid_of_str_oid_str o). by rewrite H. }
  subst. discriminate H.
Qed.

Lemma oid_of_insert (o : N) (data : document) : oid_of (<["_id" := VOid o]> data) = Some o.
Proof. unfold oid_of. by rewrite lookup_insert_eq. Qed.

Lemma oid_of_Some (d : document) (o : N) : oid_of d = Some o -> d !! "_id" = Some (VOid o).
Proof.
  unfold oid_of. destruct (d !! "_id") as [[]|]; try discriminate. by intros [= ->].
Qed.

Lemma store_wf_empty : store_wf empty_store.
Proof. intros c. split; [constructor|]. unfold docs. simpl. rewrite lookup_empty. constructor. Qed.

Lemma store_wf_settle (s : database) : store_wf s -> store_wf (settle s).
Proof. done. Qed.

(** The invariant is kept by every insert. *)
Lemma store_wf_insert_one (c : string) (data : document) (s : database) :
  store_wf s -> store_wf (insert_one c data s).2.
Proof.
  intros Hwf c'. destruct (Hwf c') as [Hall Hnd].
  assert (Hnext : next_oid (insert_one c data s).2 = N.succ (next_oid s)) by done.
  assert (Hweak : Forall (fun d => exists o, oid_of d = Some o
                                  /\ (o < next_oid (insert_one c data s).2)%N) (docs s c')).
  { eapply Forall_impl; [exact Hall|]. intros d (o & Ho & Hlt). exists o.
    split; [done|]. rewrite Hnext. lia. }
  destruct (decide (c = c')) as [<-|Hne].
  - rewrite docs_insert_one. split.
    + apply Forall_app. split; [done|]. constructor; [|done].
      exists (next_oid s). split; [apply oid_of_insert|rewrite Hnext; lia].
    + rewrite fmap_app. apply NoDup_app. split; [done|]. split; [|apply NoDup_singleton].
      intros x Hx. cbn [fmap list_fmap]. rewrite oid_of_insert.
      intros ->%list_elem_of_singleton.
      apply list_elem_of_fmap in Hx as (d & Hd & Hin).
      rewrite Forall_forall in Hall. destruct (Hall d Hin) as (o & Ho & Hlt).
      rewrite Ho in Hd. inversion Hd. lia.
  - by rewrite (docs_insert_one_ne _ _ _ _ Hne).
Qed.

Lemma store_wf_seeded (s : database) : store_wf s -> store_wf (seeded s).
Proof.
  intros H. unfold seeded, DEMO_MENU. cbn [fold_left].
  repeat (first [apply store_wf_insert_one | apply store_wf_settle]). done.
Qed.

Lemma Forall_filter {A : Type} (P : A -> Prop) (f : A -> bool) (l : list A) :
  Forall P l -> Forall P (List.filter f l).
Proof.
  induction 1 as [|x l Hx _ IH]; [constructor|].
  cbn [List.filter]. destruct (f x); [by constructor|done].
Qed.

Lemma NoDup_fmap_filter {A B : Type} (g : A -> B) (f : A -> bool) (l : list A) :
  NoDup (g <$> l) -> NoDup (g <$> List.filter f l).
Proof.
  induction l as [|x l IH]; [done|]. cbn [fmap list_fmap List.filter].
  intros [Hx Hl]%NoDup_cons. destruct (f x); [|by apply IH].
  cbn [fmap list_fmap]. apply NoDup_cons. split; [|by apply IH].
  intros (y & Hy & Hin)%list_elem_of_fmap. apply Hx.
  apply list_elem_of_fmap. exists y. split; [done|].
  apply list_elem_of_In. apply list_elem_of_In in Hin. by apply filter_In in Hin as [Hin _].
Qed.

Lemma remap_id_oid (py : interpreter) (d : document) (o : N) :
  oid_of d = Some o ->
  remap_id py d = Ok (<["id" := VStr (oid_str o)]> (delete "_id" d)).
Proof. intros H%oid_of_Some. by rewrite (remap_id_Some _ _ _ H). Qed.

Lemma for_each_remapped (py : interpreter) (ds : list document) :
  Forall (fun d => exists o, oid_of d = Some o) ds ->
  exists its, for_each (remap_id py) ds = Ok its /\ Forall2 remapped ds its.
Proof.
  induction 1 as [|d ds [o Ho] _ (its & Hits & Hrel)]; [by exists []|].
  eexists. cbn [for_each]. rewrite (remap_id_oid _ _ _ Ho), Hits.
  split; [done|]. constructor; [by exists o|done].
Qed.

Lemma remapped_fields (d it : document) :
  remapped d it ->
  (exists i, it !! "id" = Some (VStr i) /\ i ≠ "" /\ it !! "_id" = None) /\
  it !! "id" = (fun o => VStr (oid_str o)) <$> oid_of d.
Proof.
  intros (o & Ho & ->). rewrite Ho. split; [|by rewrite lookup_insert_eq].
  exists (oid_str o). split; [by rewrite lookup_insert_eq|].
  split; [apply oid_str_nonempty|]. by rewrite lookup_insert_ne, lookup_delete_eq.
Qed.

Lemma remapped_ids (ds its : list document) :
  Forall2 remapped ds its ->
  (fun it => it !! "id") <$> its
  = (fmap (M:=option) (fun o => VStr (oid_str o))) <$> (oid_of <$> ds).
Proof.
  induction 1 as [|d it ds its Hd _ IH]; [done|].
  cbn [fmap list_fmap]. f_equal; [by apply remapped_fields|exact IH].
Qed.

Lemma public_id_inj : Inj (=) (=) (fmap (M:=option) (fun o => VStr (oid_str o))).
Proof.
  intros [a|] [b|]; simpl; try done. intros [= H]. f_equal. by apply oid_str_inj.
Qed.

(** On a store that keeps the invariant, a listing that goes through
    returns every selected item with a non-empty [id], no [_id], and no
    two items with the same [id]. *)
Lemma list_menu_wf (py : interpreter) (s : database) (rid : string) :
  store_wf s -> next_ok s ->
  exists its,
    list_menu py (Some s) rid = (Return (as_list its), Some (settle s)) /\
    Forall2 remapped (selected s "menuitem" [("restaurant_id", rid)]) its /\
    Forall (fun it => exists i, it !! "id" = Some (VStr i) /\ i ≠ "" /\ it !! "_id" = None) its /\
    NoDup ((fun it => it !! "id") <$> its).
Proof.
  intros Hwf Hok. destruct (Hwf "menuitem") as [Hall Hnd].
  destruct (for_each_remapped py (selected s "menuitem" [("restaurant_id", rid)]))
    as (its & Hits & Hrel).
  { apply Forall_filter. eapply Forall_impl; [exact Hall|].
    intros d (o & Ho & _). by exists o. }
  exists its. unfold list_menu. rewrite (menu_from_store_through _ _ _ Hok), Hits.
  split; [done|]. split; [done|]. split.
  - clear Hits. induction Hrel as [|d it ds its' Hd _ IH]; constructor; [|done].
    by apply remapped_fields in Hd as [Hd _].
  - rewrite (remapped_ids _ _ Hrel). apply (NoDup_fmap_2 _ (Inj0:=public_id_inj)).
    by apply NoDup_fmap_filter.
Qed.

Lemma selected_seeded (s : database) :
  selected (seeded s) "menuitem" [("restaurant_id", oid_str (next_oid s))]
  = (selected s "menuitem" [("restaurant_id", oid_str (next_oid s))]
     ++ ((fun '(k, itm) => <["_id" := VOid (next_oid s + k)%N]>
                             (seed_item (oid_str (next_oid s)) itm))
         <$> zip [1; 2; 3]%N DEMO_MENU))%list.
Proof.
  unfold selected. rewrite seeded_menu, List.filter_app. f_equal.
  unfold DEMO_MENU. cbn [zip zip_with fmap list_fmap List.filter].
  repeat match goal with
  | |- context [matches ?flt ?d] =>
      replace (matches flt d) with true
        by (symmetry; apply matches_restaurant; by eapply seed_item_fields)
  end.
  reflexivity.
Qed.

Lemma fresh_item (rest_id : string) (itm it : document) (o : N) :
  remapped (<["_id" := VOid o]> (seed_item rest_id itm)) it ->
  it !! "id" = Some (VStr (oid_str o)) /\
  it !! "restaurant_id" = Some (VStr rest_id) /\
  (forall k, k ≠ "_id" -> k ≠ "restaurant_id" -> k ≠ "id" -> it !! k = itm !! k).
Proof.
  intros (o' & Ho & ->). rewrite oid_of_insert in Ho. injection Ho as <-.
  destruct (seed_item_fields rest_id itm o) as (Hr & _ & _ & Hk).
  split; [by rewrite lookup_insert_eq|].
  split; [by rewrite lookup_insert_ne, lookup_delete_ne|].
  intros k H1 H2 H3. rewrite lookup_insert_ne, lookup_delete_ne by done. by apply Hk.
Qed.

(** C9. On a store that assigned every identity itself, after a seed
    that inserts, [list_menu] for the new restaurant returns the three
    seeded items (after any older item that pointed at the same
    identity), each with the demo item's fields and, for [id], the string
    form of the identity the store assigned to it; every returned item
    has a non-empty string [id] and no [_id], and no two returned items
    share an [id]. *)
Theorem seeded_menu_round_trip (py : interpreter) (s : database) :
  store_wf s -> db_bool s = Ok true -> fault_free s -> docs s "restaurant" = [] ->
  exists s1 s2 older fresh,
    seed_demo_data (Some s) = (Return seed_ack, Some s1) /\
    list_menu py (Some s1) (oid_str (next_oid s))
    = (Return (as_list (older ++ fresh)%list), Some s2) /\
    Forall2 (fun itm it =>
      (exists o, (next_oid s < o)%N /\ it !! "id" = Some (VStr (oid_str o))) /\
      it !! "restaurant_id" = Some (VStr (oid_str (next_oid s))) /\
      (forall k, k ≠ "_id" -> k ≠ "restaurant_id" -> k ≠ "id" -> it !! k = itm !! k))
      DEMO_MENU fresh /\
    Forall (fun it => exists i, it !! "id" = Some (VStr i) /\ i ≠ "" /\ it !! "_id" = None)
      (older ++ fresh)%list /\
    NoDup ((fun it => it !! "id") <$> (older ++ fresh)%list).
Proof.
  intros Hwf Hb Hs Hnone.
  destruct (list_menu_wf py (seeded s) (oid_str (next_oid s)))
    as (its & Hrun & Hrel & Hids & Hnd).
  { by apply store_wf_seeded. }
  { by apply fault_free_next_ok, seeded_fault_free. }
  rewrite selected_seeded in Hrel.
  apply Forall2_app_inv_l in Hrel as (older & fresh & _ & Hfresh & ->).
  exists (seeded s), (settle (seeded s)), older, fresh.
  split; [by apply seed_demo_data_fresh|]. split; [exact Hrun|].
  split; [|by split].
  unfold DEMO_MENU in *. cbn [zip zip_with fmap list_fmap] in Hfresh.
  inversion Hfresh as [|d1 a l1 f1 Ha Hf1]; subst.
  inversion Hf1 as [|d2 b l2 f2 Hb' Hf2]; subst.
  inversion Hf2 as [|d3 c l3 f3 Hc Hf3]; subst.
  inversion Hf3; subst.
  apply fresh_item in Ha as (Ha & Ha' & Ha'').
  apply fresh_item in Hb' as (Hb1 & Hb2 & Hb3).
  apply fresh_item in Hc as (Hc1 & Hc2 & Hc3).
  repeat constructor; try done; eexists; (split; [|eassumption]); lia.
Qed.

Lemma seeded_menu_round_trip_witness :
  (exists s1 s2 its,
     seed_demo_data (Some empty_store) = (Return seed_ack, Some s1) /\
     list_menu sample_py (Some s1) "000000000000000000000000"
     = (Return (as_list its), Some s2) /\
     Forall (fun it => exists i, it !! "id" = Some (VStr i) /\ i ≠ "" /\ it !! "_id" = None) its /\
     NoDup ((fun it => it !! "id") <$> its)) /\
  (list_menu sample_py (Some (seeded empty_store)) "000000000000000000000000").1
  = Return (as_list [
      <["id" := VStr "000000000000000000000001"]>
        (seed_item "000000000000000000000000" (DEMO_MENU !!! 0%nat));
      <["id" := VStr "000000000000000000000002"]>
        (seed_item "000000000000000000000000" (DEMO_MENU !!! 1%nat));
      <["id" := VStr "000000000000000000000003"]>
        (seed_item "000000000000000000000000" (DEMO_MENU !!! 2%nat))]).
Proof.
  assert (Hfree : fault_free empty_store) by constructor.
  destruct (seeded_menu_round_trip sample_py empty_store store_wf_empty eq_refl Hfree eq_refl)
    as (s1 & s2 & older & fresh & Hseed & Hmenu & _ & Hids & Hnd).
  split; [by exists s1, s2, (older ++ fresh)%list|].
  vm_compute. reflexivity.
Defined.

(** ** Diagnostics *)

Lemma test_database_returns (environ : gmap string string) (db : option database) :
  exists r db',
    test_database environ db = (Return (VDict r), db') /\
    r !! "database_url" = Some (set_marker environ "DATABASE_URL") /\
    r !! "database_name" = Some (set_marker environ "DATABASE_NAME").
Proof.
  unfold test_database. destruct (probe environ db _) as [r db'].
  eexists _, _. split; [done|].
  split; [by rewrite lookup_insert_ne, lookup_insert_eq|by rewrite lookup_insert_eq].
Qed.

Lemma set_marker_cases (environ : gmap string string) (k : string) :
  set_marker environ k = VStr "✅ Set" \/ set_marker environ k = VStr "❌ Not Set".
Proof. unfold set_marker. destruct (str_truth (getenv environ k)); eauto. Qed.

(** C8, as stated, fails: with [DATABASE_URL] present in both runs, once
    as the empty string and once as a server address, the [database_url]
    fields differ. *)
Lemma diagnostics_blank_value :
  dom env_blank_url = dom env_url /\
  exists r1 r2,
    test_database env_blank_url None = (Return (VDict r1), None) /\
    test_database env_url None = (Return (VDict r2), None) /\
    r1 !! "database_url" = Some (VStr "❌ Not Set") /\
    r2 !! "database_url" = Some (VStr "✅ Set") /\
    r1 !! "database_url" ≠ r2 !! "database_url".
Proof.
  split; [by vm_compute|]. eexists _, _.
  split; [reflexivity|]. split; [reflexivity|].
  split; [by vm_compute|]. split; [by vm_compute|]. by vm_compute.
Qed.

(** C8, amended. [test_database] returns a response object for every
    store state, and its [database_url] and [database_name] fields are
    one of two fixed markers that tell only whether the variable has a
    non-empty value: two runs that agree on that for both variables,
    whatever the values and the stores, give the same two fields. *)
Theorem diagnostics_presence_only (env1 env2 : gmap string string) (db1 db2 : option database) :
  str_truth (getenv env1 "DATABASE_URL") = str_truth (getenv env2 "DATABASE_URL") ->
  str_truth (getenv env1 "DATABASE_NAME") = str_truth (getenv env2 "DATABASE_NAME") ->
  exists r1 r2 db1' db2',
    test_database env1 db1 = (Return (VDict r1), db1') /\
    test_database env2 db2 = (Return (VDict r2), db2') /\
    r1 !! "database_url" = r2 !! "database_url" /\
    r1 !! "database_name" = r2 !! "database_name" /\
    (r1 !! "database_url" = Some (VStr "✅ Set")
     \/ r1 !! "database_url" = Some (VStr "❌ Not Set")) /\
    (r1 !! "database_name" = Some (VStr "✅ Set")
     \/ r1 !! "database_name" = Some (VStr "❌ Not Set")).
Proof.
  intros Hurl Hname.
  destruct (test_database_returns env1 db1) as (r1 & db1' & H1 & Hu1 & Hn1).
  destruct (test_database_returns env2 db2) as (r2 & db2' & H2 & Hu2 & Hn2).
  exists r1, r2, db1', db2'. split; [done|]. split; [done|].
  rewrite Hu1, Hu2, Hn1, Hn2. unfold set_marker. rewrite Hurl, Hname.
  split; [done|]. split; [done|].
  split; [destruct (str_truth (getenv env2 "DATABASE_URL"))
         |destruct (str_truth (getenv env2 "DATABASE_NAME"))]; eauto.
Qed.

Lemma diagnostics_presence_only_witness :
  exists r1 r2 db1' db2',
    test_database env_a (Some unreachable_store) = (Return (VDict r1), db1') /\
    test_database env_b None = (Return (VDict r2), db2') /\
    r1 !! "database_url" = r2 !! "database_url" /\
    r1 !! "database_name" = r2 !! "database_name".
Proof.
  destruct (diagnostics_presence_only env_a env_b (Some unreachable_store) None eq_refl eq_refl)
    as (r1 & r2 & db1' & db2' & H1 & H2 & Hu & Hn & _).
  by exists r1, r2, db1', db2'.
Defined.

(** ** Seeds that do not go the usual way *)

Lemma bind_inv {A B : Type} (m : M A) (f : A -> M B) (s : database) r s' :
  bind m f s = (r, s') ->
  (exists a s1, m s = (Ok a, s1) /\ f a s1 = (r, s')) \/
  (exists e, m s = (Raise e, s') /\ r = Raise e).
Proof.
  unfold bind. destruct (m s) as [[a|e] s1]; [left; by exists a, s1|].
  intros [= <- <-]. right. by exists e.
Qed.

Lemma seed_body_phases (s : database) (truthy : bool) :
  db_bool s = Ok truthy ->
  seed_body s
  = (restaurants <- (if truthy then count_documents "restaurant" else ret 0) ;;
     (if restaurants =? 0 then insert_phase else ret tt) ;;;
     ret seed_ack)%store s.
Proof. apply seed_body_unfold. Qed.

Lemma for_insert_interrupted (c : string) (f : document -> document) (l : list document)
    (j : nat) (e : exn) (s : database) :
  fault_at j e s -> (j < length l)%nat ->
  for_ (fun itm => _ <- create_document c (f itm) ;; ret tt)%store l s
  = (Raise e, settle (fold_left (fun st itm => (insert_one c (f itm) (settle st)).2)
                        (take j l) s)).
Proof.
  revert j s. induction l as [|itm l IH]; intros j s Hj Hlen; [simpl in Hlen; lia|].
  cbn [for_]. unfold bind at 1. unfold bind at 1. destruct j as [|j].
  - apply fault_at_O in Hj as [fs Hf]. unfold create_document.
    rewrite (store_call_fault _ _ _ _ Hf). cbn [take fold_left]. unfold settle.
    by rewrite Hf.
  - apply fault_at_S in Hj as [Hok Hj].
    rewrite (create_document_through _ _ _ Hok). unfold ret at 1.
    cbn [take fold_left]. apply IH; [by apply fault_at_insert_one|simpl in Hlen; lia].
Qed.

Lemma insert_phase_through (s0 : database) :
  fault_free s0 -> insert_phase s0 = (Ok tt, seed_inserts s0).
Proof.
  intros Hs. unfold insert_phase. unfold bind at 1.
  rewrite (create_document_through _ _ _ (fault_free_next_ok _ Hs)).
  rewrite for_insert_through by by apply fault_free_insert_one, fault_free_settle.
  reflexivity.
Qed.

Lemma insert_phase_interrupted (s0 : database) (j : nat) (e : exn) :
  fault_at (S j) e s0 -> (j < length DEMO_MENU)%nat ->
  insert_phase s0 = (Raise e, seed_interrupted j s0).
Proof.
  intros [Hok Hj]%fault_at_S Hlen. unfold insert_phase. unfold bind at 1.
  rewrite (create_document_through _ _ _ Hok).
  by rewrite (for_insert_interrupted _ _ _ j e)
    by (by apply fault_at_insert_one || done).
Qed.

Lemma docs_menu_inserts_other (rest_id : string) (l : list document) (st : database)
    (c : string) :
  c ≠ "menuitem" -> docs (fold_left (menu_insert rest_id) l st) c = docs st c.
Proof.
  intros Hc. revert st. induction l as [|itm l IH]; intros st; [done|].
  cbn [fold_left]. rewrite IH. unfold menu_insert.
  by rewrite docs_insert_one_ne.
Qed.

Lemma seed_inserts_restaurants (s0 : database) :
  docs (seed_inserts s0) "restaurant"
  = (docs s0 "restaurant" ++ [<["_id" := VOid (next_oid s0)]> seed_restaurant])%list.
Proof.
  unfold seed_inserts. rewrite docs_menu_inserts_other by done.
  unfold restaurant_inserted. by rewrite docs_insert_one.
Qed.

Lemma seed_interrupted_restaurants (j : nat) (s0 : database) :
  docs (seed_interrupted j s0) "restaurant"
  = (docs s0 "restaurant" ++ [<["_id" := VOid (next_oid s0)]> seed_restaurant])%list.
Proof.
  unfold seed_interrupted. rewrite docs_settle, docs_menu_inserts_other by done.
  unfold restaurant_inserted. by rewrite docs_insert_one.
Qed.

Lemma menu_inserts_docs (j : nat) (s0 : database) :
  docs (fold_left (menu_insert (oid_str (next_oid s0))) (take j DEMO_MENU)
          (restaurant_inserted s0)) "menuitem"
  = (docs s0 "menuitem" ++ take j (seed_menu_docs (next_oid s0)))%list.
Proof.
  assert (Hbase : docs (restaurant_inserted s0) "menuitem" = docs s0 "menuitem").
  { unfold restaurant_inserted. by rewrite docs_insert_one_ne. }
  assert (Hnext : next_oid (restaurant_inserted s0) = (next_oid s0 + 1)%N)
    by (cbn; lia).
  assert (Hall : forall n, (3 <= n)%nat ->
            take n DEMO_MENU = take 3 DEMO_MENU /\
            take n (seed_menu_docs (next_oid s0)) = take 3 (seed_menu_docs (next_oid s0))).
  { intros n Hn. by rewrite !take_ge by (vm_compute; lia). }
  destruct (Nat.le_gt_cases 3 j) as [Hj|Hj];
    [destruct (Hall j Hj) as [-> ->]; clear Hj|].
  all: unfold seed_menu_docs, DEMO_MENU.
  1: change 3%nat with (S (S (S O))).
  2: destruct j as [|[|[|j]]]; [| | |lia].
  all: cbn [take fold_left zip zip_with fmap list_fmap]; unfold menu_insert;
    repeat (rewrite docs_insert_one, docs_settle);
    rewrite Hbase; cbn [next_oid insert_one settle with_faults snd];
    rewrite ?Hnext, <- ?app_assoc; cbn [app];
    rewrite ?app_nil_r;
    replace (N.succ (next_oid s0 + 1)) with (next_oid s0 + 2)%N by lia;
    replace (N.succ (next_oid s0 + 2)) with (next_oid s0 + 3)%N by lia;
    reflexivity.
Qed.

Lemma seed_inserts_menu (s0 : database) :
  docs (seed_inserts s0) "menuitem"
  = (docs s0 "menuitem" ++ seed_menu_docs (next_oid s0))%list.
Proof.
  pose proof (menu_inserts_docs 3 s0) as H.
  by rewrite !take_ge in H by (vm_compute; lia).
Qed.

Lemma seed_interrupted_menu (j : nat) (s0 : database) :
  docs (seed_interrupted j s0) "menuitem"
  = (docs s0 "menuitem" ++ take j (seed_menu_docs (next_oid s0)))%list.
Proof. unfold seed_interrupted. rewrite docs_settle. apply menu_inserts_docs. Qed.

Lemma seed_inserts_fault_free (s0 : database) : fault_free s0 -> fault_free (seed_inserts s0).
Proof.
  intros H. unfold seed_inserts, restaurant_inserted, DEMO_MENU, menu_insert.
  cbn [fold_left].
  repeat (first [apply fault_free_insert_one | apply fault_free_settle]). done.
Qed.

Lemma seed_demo_data_falsy (s : database) :
  db_bool s = Ok false -> fault_free s ->
  seed_demo_data (Some s) = (Return seed_ack, Some (seed_inserts s)).
Proof.
  intros Hb Hs. unfold seed_demo_data, or_500. rewrite (seed_body_phases _ _ Hb).
  unfold bind at 1. unfold ret at 1. change (0 =? 0) with true. cbv iota.
  unfold bind at 1. by rewrite (insert_phase_through _ Hs).
Qed.

Lemma db_bool_menu_inserts (rest_id : string) (l : list document) (st : database) :
  db_bool (fold_left (menu_insert rest_id) l st) = db_bool st.
Proof. revert st. induction l as [|itm l IH]; intros st; [done|]. cbn [fold_left]. by rewrite IH. Qed.

Lemma db_bool_seed_interrupted (j : nat) (s0 : database) :
  db_bool (seed_interrupted j s0) = db_bool s0.
Proof. unfold seed_interrupted. cbn [settle with_faults db_bool]. by rewrite db_bool_menu_inserts. Qed.

Lemma seed_menu_docs_length (o : N) : length (seed_menu_docs o) = 3%nat.
Proof. reflexivity. Qed.

(** X1. A handle that is not [None] but counts as false makes
    [seed_demo_data] skip the existence check ([... if db else 0]): every
    seed then inserts a restaurant and three menu items, whatever is
    stored, so a second seed duplicates the first. *)
Theorem seed_falsy_handle_duplicates (s : database) :
  db_bool s = Ok false -> fault_free s ->
  exists s1 s2,
    seed_demo_data (Some s) = (Return seed_ack, Some s1) /\
    seed_demo_data (Some s1) = (Return seed_ack, Some s2) /\
    docs s2 "restaurant"
    = (docs s "restaurant"
       ++ [<["_id" := VOid (next_oid s)]> seed_restaurant;
           <["_id" := VOid (next_oid s + 4)]> seed_restaurant])%list /\
    docs s2 "menuitem"
    = (docs s "menuitem" ++ seed_menu_docs (next_oid s)
       ++ seed_menu_docs (next_oid s + 4))%list.
Proof.
  intros Hb Hs. exists (seed_inserts s), (seed_inserts (seed_inserts s)).
  assert (Hnext : next_oid (seed_inserts s) = (next_oid s + 4)%N)
    by (unfold seed_inserts, DEMO_MENU; cbn; lia).
  split; [by apply seed_demo_data_falsy|].
  split; [apply seed_demo_data_falsy; [done|by apply seed_inserts_fault_free]|].
  rewrite !seed_inserts_restaurants, !seed_inserts_menu, Hnext.
  by rewrite <- !app_assoc.
Qed.

Lemma seed_falsy_handle_duplicates_witness :
  exists s1 s2,
    seed_demo_data (Some falsy_store) = (Return seed_ack, Some s1) /\
    seed_demo_data (Some s1) = (Return seed_ack, Some s2) /\
    length (docs s2 "restaurant") = 2%nat /\
    length (docs s2 "menuitem") = 6%nat.
Proof.
  assert (Hfree : fault_free falsy_store) by constructor.
  destruct (seed_falsy_handle_duplicates falsy_store eq_refl Hfree)
    as (s1 & s2 & H1 & H2 & Hr & Hm).
  exists s1, s2. rewrite Hr, Hm. repeat split; done.
Defined.

(** X2. [seed_demo_data] is not atomic: when the insert of menu item
    number [j] fails, the answer is 500 while the restaurant and the [j]
    items before it stay stored; every later seed whose existence check
    goes through then finds the restaurant, answers success and inserts
    nothing, so the menu stays incomplete. *)
Theorem seed_interrupted_stays_incomplete (s : database) (j : nat) (e : exn) :
  db_bool s = Ok true -> docs s "restaurant" = [] ->
  fault_at (S (S j)) e s -> (j < length DEMO_MENU)%nat ->
  exists s1,
    seed_demo_data (Some s) = (HTTPException 500 (exn_str e), Some s1) /\
    docs s1 "restaurant" = [<["_id" := VOid (next_oid s)]> seed_restaurant] /\
    docs s1 "menuitem" = (docs s "menuitem" ++ take j (seed_menu_docs (next_oid s)))%list /\
    length (docs s1 "menuitem") = (length (docs s "menuitem") + j)%nat /\
    (next_ok s1 ->
     seed_demo_data (Some s1) = (Return seed_ack, Some (settle s1)) /\
     collections (settle s1) = collections s1).
Proof.
  intros Hb Hnone [Hok Hj]%fault_at_S Hlen.
  exists (seed_interrupted j (settle s)).
  assert (Hr : docs (seed_interrupted j (settle s)) "restaurant"
               = [<["_id" := VOid (next_oid s)]> seed_restaurant]).
  { rewrite seed_interrupted_restaurants, docs_settle, Hnone. reflexivity. }
  split.
  { unfold seed_demo_data, or_500. rewrite (seed_body_phases _ _ Hb).
    unfold bind at 1. rewrite (count_documents_through _ _ Hok), Hnone.
    change (Z.of_nat (length []) =? 0) with true. cbv iota beta.
    unfold bind at 1. by rewrite (insert_phase_interrupted _ _ _ Hj Hlen). }
  split; [exact Hr|].
  split; [by rewrite seed_interrupted_menu, docs_settle|].
  split.
  { rewrite seed_interrupted_menu, docs_settle, length_app, length_take.
    rewrite seed_menu_docs_length. change (length DEMO_MENU) with 3%nat in Hlen. lia. }
  intros Hnext. split; [|done].
  apply seed_demo_data_existing; [by rewrite db_bool_seed_interrupted|done|by rewrite Hr].
Qed.

Lemma seed_interrupted_stays_incomplete_witness :
  exists s1,
    seed_demo_data (Some (flaky_store 3)) = (HTTPException 500 "connection closed", Some s1) /\
    length (docs s1 "restaurant") = 1%nat /\
    length (docs s1 "menuitem") = 1%nat /\
    seed_demo_data (Some s1) = (Return seed_ack, Some (settle s1)).
Proof.
  assert (Hfault : fault_at 3 ConnectionClosed (flaky_store 3)) by (by exists []).
  assert (Hlen : (1 < length DEMO_MENU)%nat) by (vm_compute; lia).
  destruct (seed_interrupted_stays_incomplete (flaky_store 3) 1 ConnectionClosed
              eq_refl eq_refl Hfault Hlen) as (s1 & Hrun & Hr & Hm & Hn & Hlater).
  exists s1. split; [exact Hrun|]. split; [by rewrite Hr|]. split; [exact Hn|].
  apply Hlater. injection Hrun as <-. exact I.
Defined.

(** ** Listing stored restaurants *)

Lemma selected_all (s : database) (c : string) : selected s c [] = docs s c.
Proof.
  unfold selected. induction (docs s c) as [|d l IH]; [done|].
  cbn [List.filter matches forallb]. by rewrite IH.
Qed.

Lemma remap_id_fields (py : interpreter) (d it : document) :
  remap_id py d = Ok it ->
  exists o,
    d !! "_id" = Some o /\
    it !! "id" = Some (VStr (py_str py o)) /\
    it !! "_id" = None /\
    (forall k, k ≠ "id" -> k ≠ "_id" -> it !! k = d !! k).
Proof.
  intros (o & Ho & ->)%remap_id_inv. exists o. split; [done|].
  split; [by rewrite lookup_insert_eq|].
  split; [by rewrite lookup_insert_ne, lookup_delete_eq|].
  intros k H1 H2. by rewrite lookup_insert_ne, lookup_delete_ne.
Qed.

(** X3. In store-backed mode, when the query goes through and every
    stored restaurant has an identity field, [list_restaurants] returns
    one object per stored restaurant, in stored order: its [id] is the
    string of the stored [_id] (replacing an [id] field the document may
    have had), [_id] is gone, and every other field is as stored. *)
Theorem list_restaurants_store (py : interpreter) (s : database) :
  next_ok s -> Forall (fun d => is_Some (d !! "_id")) (docs s "restaurant") ->
  exists its,
    list_restaurants py (Some s) = (Return (as_list its), Some (settle s)) /\
    Forall2 (fun d it =>
      exists o,
        d !! "_id" = Some o /\
        it !! "id" = Some (VStr (py_str py o)) /\
        it !! "_id" = None /\
        (forall k, k ≠ "id" -> k ≠ "_id" -> it !! k = d !! k))
      (docs s "restaurant") its.
Proof.
  intros Hok Hids. destruct (for_each_remap_total py _ Hids) as [its Hits].
  exists its. unfold list_restaurants.
  rewrite (restaurants_from_store_through _ _ Hok), selected_all, Hits.
  split; [done|]. apply for_each_Forall2 in Hits.
  eapply Forall2_impl; [exact Hits|]. intros d it. apply remap_id_fields.
Qed.

Lemma list_restaurants_store_witness :
  exists a b,
    list_restaurants sample_py (Some two_restaurants)
    = (Return (as_list [a; b]), Some (settle two_restaurants)) /\
    a !! "id" = Some (VStr "000000000000000000000007") /\
    a !! "name" = Some (VStr "Noodle Bar") /\
    a !! "_id" = None /\
    b !! "id" = Some (VStr "000000000000000000000008").
Proof.
  destruct (list_restaurants_store sample_py two_restaurants I) as (its & Hrun & Hrel).
  { repeat constructor; by eexists; vm_compute. }
  change (docs two_restaurants "restaurant") with
    [dict [("_id", VOid 7); ("name", VStr "Noodle Bar"); ("id", VStr "legacy-9")];
     dict [("_id", VOid 8); ("name", VStr "Taqueria")]] in Hrel.
  inversion Hrel as [|d1 a l1 its1 (o1 & Ho1 & Ha & Ha' & Hka) Hrel1]; subst.
  inversion Hrel1 as [|d2 b l2 its2 (o2 & Ho2 & Hb & _) Hrel2]; subst.
  inversion Hrel2; subst.
  exists a, b. split; [exact Hrun|].
  vm_compute in Ho1. injection Ho1 as <-. vm_compute in Ho2. injection Ho2 as <-.
  split; [exact Ha|]. split; [by rewrite Hka|]. split; [exact Ha'|exact Hb].
Defined.

(** ** Orders and their identities *)

Lemma order_doc_cases (py : interpreter) (payload : OrderPayload) :
  (payable (items payload) = true /\ exists doc, order_doc py payload = Ok doc) \/
  (payable (items payload) = false /\ order_doc py payload = Raise OverflowError).
Proof.
  destruct (payable (items payload)) eqn:Hpay.
  - left. split; [done|].
    destruct (order_doc_payable py payload Hpay) as (t & doc & _ & Hdoc & _). by exists doc.
  - right. split; [done|]. by apply order_doc_overflow.
Qed.

(** X4. An order without items is accepted: in store-backed mode it is
    stored with the integer total [0] and an empty list of items, and in
    demo mode it is acknowledged like any other. *)
Theorem create_order_no_items (py : interpreter) (s : database) (payload : OrderPayload) :
  items payload = [] -> next_ok s ->
  exists stored s',
    create_order py (Some s) payload
    = (Return (order_reply (oid_str (next_oid s))), Some s') /\
    docs s' "order" = (docs s "order" ++ [stored])%list /\
    stored !! "total" = Some (VInt 0) /\
    stored !! "items" = Some (VList []) /\
    create_order py None payload = (Return demo_ack, None).
Proof.
  intros Hitems Hok.
  assert (Hpay : payable (items payload) = true) by by rewrite Hitems.
  destruct (order_doc_payable py payload Hpay)
    as (t & doc & Ht & Hdoc & Htotal & Hstored & _).
  unfold spec_total in Ht. rewrite Hitems in Ht, Hstored. injection Ht as <-.
  exists (<["_id" := VOid (next_oid s)]> doc), (insert_one "order" doc (settle s)).2.
  split; [by apply create_order_insert_through|].
  split; [by rewrite docs_insert_one|].
  split; [by rewrite lookup_insert_ne|].
  split; [by rewrite lookup_insert_ne|].
  by apply create_order_demo.
Qed.

Lemma create_order_no_items_witness :
  exists stored s',
    create_order sample_py (Some empty_store) empty_order
    = (Return (order_reply "000000000000000000000000"), Some s') /\
    docs s' "order" = [stored] /\
    stored !! "total" = Some (VInt 0).
Proof.
  destruct (create_order_no_items sample_py empty_store empty_order eq_refl I)
    as (stored & s' & Hrun & Hdocs & Htotal & _).
  by exists stored, s'.
Defined.

(** X5. In store-backed mode the [order_id] that [create_order] returns
    is the string of the identity under which the order is stored: on a
    store that assigned every identity itself, no document stored before
    has it, and two orders in a row get different ones (unlike demo mode,
    where every order gets ["demo-order-1"]). *)
Theorem create_order_ids (py : interpreter) (s : database) (p1 p2 : OrderPayload) :
  store_wf s -> fault_free s ->
  payable (items p1) = true -> payable (items p2) = true ->
  exists s1 s2 d1 d2 o1 o2,
    create_order py (Some s) p1 = (Return (order_reply (oid_str o1)), Some s1) /\
    create_order py (Some s1) p2 = (Return (order_reply (oid_str o2)), Some s2) /\
    docs s2 "order" = (docs s "order" ++ [d1; d2])%list /\
    oid_of d1 = Some o1 /\
    oid_of d2 = Some o2 /\
    oid_str o1 ≠ oid_str o2 /\
    (forall c d, d ∈ docs s c ->
       exists o, oid_of d = Some o /\ oid_str o ≠ oid_str o1 /\ oid_str o ≠ oid_str o2).
Proof.
  intros Hwf Hs H1 H2.
  destruct (order_doc_payable py p1 H1) as (t1 & doc1 & _ & Hdoc1 & _).
  destruct (order_doc_payable py p2 H2) as (t2 & doc2 & _ & Hdoc2 & _).
  set (s1 := (insert_one "order" doc1 (settle s)).2).
  set (s2 := (insert_one "order" doc2 (settle s1)).2).
  exists s1, s2, (<["_id" := VOid (next_oid s)]> doc1),
    (<["_id" := VOid (N.succ (next_oid s))]> doc2), (next_oid s), (N.succ (next_oid s)).
  split; [by apply create_order_insert_through, fault_free_next_ok|].
  split.
  { apply (create_order_insert_through py s1 p2 doc2 Hdoc2).
    by apply fault_free_next_ok, fault_free_insert_one, fault_free_settle. }
  split.
  { unfold s2. rewrite docs_insert_one, docs_settle. unfold s1.
    rewrite docs_insert_one, docs_settle. by rewrite <- app_assoc. }
  split; [apply oid_of_insert|]. split; [apply oid_of_insert|].
  split; [intros H%oid_str_inj; lia|].
  intros c d Hd. destruct (Hwf c) as [Hall _]. rewrite Forall_forall in Hall.
  destruct (Hall d Hd) as (o & Ho & Hlt). exists o. split; [done|].
  split; intros H%oid_str_inj; lia.
Qed.

Lemma create_order_ids_witness :
  exists s1 s2 o1 o2,
    create_order sample_py (Some empty_store) sample_order
    = (Return (order_reply (oid_str o1)), Some s1) /\
    create_order sample_py (Some s1) empty_order
    = (Return (order_reply (oid_str o2)), Some s2) /\
    oid_str o1 ≠ oid_str o2 /\
    length (docs s2 "order") = 2%nat.
Proof.
  assert (Hfree : fault_free empty_store) by constructor.
  assert (H1 : payable (items sample_order) = true) by (vm_compute; reflexivity).
  assert (H2 : payable (items empty_order) = true) by reflexivity.
  destruct (create_order_ids sample_py empty_store sample_order empty_order
              store_wf_empty Hfree H1 H2)
    as (s1 & s2 & d1 & d2 & o1 & o2 & Hr1 & Hr2 & Hdocs & _ & _ & Hne & _).
  exists s1, s2, o1, o2. rewrite Hdocs. by repeat split.
Defined.

(** X6. In store-backed mode [create_order] acknowledges only what it
    has stored: whenever it returns normally, the answer carries the
    identity the store assigned, the [order] collection has grown by
    exactly the one document with that identity, and no other collection
    has changed. An order whose total cannot be computed is answered with
    status 500 before any store call: the store is exactly as it was. *)
Theorem create_order_acknowledges_only_stored (py : interpreter) (s : database)
    (payload : OrderPayload) :
  exists o s',
    create_order py (Some s) payload = (o, Some s') /\
    (forall v, o = Return v ->
       v = order_reply (oid_str (next_oid s)) /\
       (exists stored,
          docs s' "order" = (docs s "order" ++ [stored])%list /\
          oid_of stored = Some (next_oid s)) /\
       (forall c, c ≠ "order" -> docs s' c = docs s c) /\
       payable (items payload) = true /\ next_ok s) /\
    (payable (items payload) = false ->
       o = HTTPException 500 "int too large to convert to float" /\ s' = s).
Proof.
  destruct (order_doc_cases py payload) as [[Hpay [doc Hdoc]]|[Hpay Hdoc]].
  - destruct (next_ok_or_fault s) as [Hok|(e & fs & Hf)].
    + eexists _, _. split; [by apply create_order_insert_through|].
      split; [|by rewrite Hpay].
      intros v [= <-]. split; [done|].
      split.
      { exists (<["_id" := VOid (next_oid s)]> doc).
        split; [by rewrite docs_insert_one|apply oid_of_insert]. }
      split; [intros c Hc; by rewrite docs_insert_one_ne|done].
    + eexists _, _. split; [by eapply create_order_insert_fault|].
      split; [intros v [=]|by rewrite Hpay].
  - eexists _, _. split; [by apply create_order_raise|].
    split; [intros v [=]|]. intros _. by split.
Qed.

(** ** What the handlers leave alone *)

Lemma grows_refl (s : database) : grows s s.
Proof. by intros c. Qed.

Lemma grows_trans (s1 s2 s3 : database) : grows s1 s2 -> grows s2 s3 -> grows s1 s3.
Proof.
  intros H12 H23 c. destruct (H12 c) as [k1 E1], (H23 c) as [k2 E2].
  exists (k1 ++ k2)%list. by rewrite E2, E1, <- app_assoc.
Qed.

Lemma same_data_refl (s : database) : same_data s s.
Proof. by split. Qed.

Lemma same_data_trans (s1 s2 s3 : database) :
  same_data s1 s2 -> same_data s2 s3 -> same_data s1 s3.
Proof. intros [H1 H1'] [H2 H2']. split; congruence. Qed.

Lemma same_data_grows (s s' : database) : same_data s s' -> grows s s'.
Proof. intros [H _] c. unfold docs. by rewrite H. Qed.

Lemma same_data_settle (s : database) : same_data s (settle s).
Proof. by split. Qed.

Lemma grows_insert_one (c : string) (data : document) (s : database) :
  grows s (insert_one c data s).2.
Proof.
  intros c'. destruct (decide (c = c')) as [<-|Hne].
  - rewrite docs_insert_one. by apply prefix_app_r.
  - by rewrite docs_insert_one_ne.
Qed.

Section Keeps.
Context (R : database -> database -> Prop).
Hypothesis R_refl : forall s, R s s.
Hypothesis R_trans : forall s1 s2 s3, R s1 s2 -> R s2 s3 -> R s1 s3.
Hypothesis R_settle : forall s, R s (settle s).

Lemma keeps_ret {A : Type} (a : A) : keeps R (ret a).
Proof using R_refl. intros s r s' [= <- <-]. apply R_refl. Qed.

Lemma keeps_lift {A : Type} (x : result A) : keeps R (lift x).
Proof using R_refl. intros s r s' [= <- <-]. apply R_refl. Qed.

Lemma keeps_truth : keeps R truth.
Proof using R_refl. intros s r s' [= <- <-]. apply R_refl. Qed.

Lemma keeps_bind {A B : Type} (m : M A) (f : A -> M B) :
  keeps R m -> (forall a, keeps R (f a)) -> keeps R (bind m f).
Proof using R_trans.
  intros Hm Hf s r s' [(a & s1 & H1 & H2)|(e & H1 & _)]%bind_inv.
  - eapply R_trans; [by eapply Hm|by eapply Hf].
  - by eapply Hm.
Qed.

Lemma keeps_for {A : Type} (f : A -> M unit) (l : list A) :
  (forall x, keeps R (f x)) -> keeps R (for_ f l).
Proof using R_refl R_trans.
  intros Hf. induction l as [|x l IH]; [apply keeps_ret|].
  cbn [for_]. apply keeps_bind; [apply Hf|by intros _].
Qed.

Lemma keeps_store_call {A : Type} (op : database -> A * database) :
  (forall s, R s (op s).2) -> keeps R (store_call op).
Proof using R_trans R_settle.
  intros Hop s r s'. unfold store_call.
  destruct (faults s) as [|[e|] fs] eqn:Hf.
  - destruct (op (settle s)) as [a s1] eqn:Hrun. intros [= <- <-].
    eapply R_trans; [apply R_settle|]. specialize (Hop (settle s)). by rewrite Hrun in Hop.
  - intros [= <- <-]. apply R_settle.
  - destruct (op (settle s)) as [a s1] eqn:Hrun. intros [= <- <-].
    eapply R_trans; [apply R_settle|]. specialize (Hop (settle s)). by rewrite Hrun in Hop.
Qed.
End Keeps.

Lemma grows_settle (s : database) : grows s (settle s).
Proof. apply same_data_grows, same_data_settle. Qed.

Lemma create_document_grows (c : string) (data : document) :
  keeps grows (create_document c data).
Proof.
  apply keeps_store_call; [apply grows_trans|apply grows_settle|].
  intros s. apply grows_insert_one.
Qed.

Lemma count_documents_same (c : string) : keeps same_data (count_documents c).
Proof.
  apply keeps_store_call; [apply same_data_trans|apply same_data_settle|].
  intros s. apply same_data_refl.
Qed.

Lemma get_documents_same (c : string) (flt : list (string * string)) :
  keeps same_data (get_documents c flt).
Proof.
  apply keeps_store_call; [apply same_data_trans|apply same_data_settle|].
  intros s. apply same_data_refl.
Qed.

Lemma list_collection_names_same : keeps same_data list_collection_names.
Proof.
  apply keeps_store_call; [apply same_data_trans|apply same_data_settle|].
  intros s. apply same_data_refl.
Qed.

Lemma keeps_weaken {A : Type} (R R' : database -> database -> Prop) (m : M A) :
  (forall s s', R s s' -> R' s s') -> keeps R m -> keeps R' m.
Proof. intros HR Hm s r s' Hrun. by eapply HR, Hm. Qed.

Lemma seed_body_grows : keeps grows seed_body.
Proof.
  pose proof grows_refl. pose proof grows_trans.
  unfold seed_body.
  apply keeps_bind; [done|by apply keeps_truth|]. intros truthy.
  apply keeps_bind; [done| |].
  { destruct truthy; [|by apply keeps_ret].
    eapply keeps_weaken; [apply same_data_grows|apply count_documents_same]. }
  intros restaurants. apply keeps_bind; [done| |intros _; by apply keeps_ret].
  destruct (restaurants =? 0); [|by apply keeps_ret].
  repeat (apply keeps_bind; [done|by apply keeps_lift|intros ?]).
  apply keeps_bind; [done|apply create_document_grows|]. intros rid.
  apply keeps_for; [done|done|]. intros itm.
  apply keeps_bind; [done|apply create_document_grows|intros _; by apply keeps_ret].
Qed.

Lemma restaurants_from_store_same (py : interpreter) :
  keeps same_data (restaurants_from_store py).
Proof.
  apply keeps_bind; [apply same_data_trans|apply get_documents_same|].
  intros data. apply keeps_lift, same_data_refl.
Qed.

Lemma menu_from_store_same (py : interpreter) (rid : string) :
  keeps same_data (menu_from_store py rid).
Proof.
  apply keeps_bind; [apply same_data_trans|apply get_documents_same|].
  intros data. apply keeps_lift, same_data_refl.
Qed.

(** X7. No handler deletes or changes a stored document, whatever the
    store answers: [seed_demo_data] and [create_order] only ever append
    (every collection keeps its documents, in place), [list_restaurants],
    [list_menu] and [test_database] store nothing and use no identity.
    In demo mode there is no store before and none after. *)
Theorem handlers_keep_stored_documents (py : interpreter) (environ : gmap string string)
    (db : option database) (payload : OrderPayload) (rid : string) :
  between grows db (seed_demo_data db).2 /\
  between grows db (create_order py db payload).2 /\
  between same_data db (list_restaurants py db).2 /\
  between same_data db (list_menu py db rid).2 /\
  between same_data db (test_database environ db).2.
Proof.
  destruct db as [s|]; cbn [between].
  2:{ repeat split; try done. unfold create_order. by destruct (order_doc py payload). }
  split.
  { unfold seed_demo_data, or_500. destruct (seed_body s) as [[v|e] s'] eqn:Hrun;
      cbn [snd between]; by eapply seed_body_grows. }
  split.
  { unfold create_order, or_500. destruct (order_doc py payload) as [doc|e];
      [|apply grows_refl].
    unfold bind. destruct (create_document "order" doc s) as [[oid|e] s'] eqn:Hrun;
      cbn [snd between ret]; by eapply create_document_grows. }
  split.
  { unfold list_restaurants. destruct (restaurants_from_store py s) as [[v|e] s'] eqn:Hrun;
      cbn [snd between]; by eapply restaurants_from_store_same. }
  split.
  { unfold list_menu. destruct (menu_from_store py rid s) as [[v|e] s'] eqn:Hrun;
      cbn [snd between]; by eapply menu_from_store_same. }
  unfold test_database, probe.
  destruct (name_or_connected s) as [shown|e]; [|apply same_data_refl].
  destruct (list_collection_names s) as [[names|e] s'] eqn:Hrun;
    cbn [snd between]; by eapply list_collection_names_same.
Qed.

(** ** What the writing handlers answer *)

Lemma seed_body_value (s : database) (v : value) (s' : database) :
  seed_body s = (Ok v, s') -> v = seed_ack.
Proof.
  unfold seed_body. intros H.
  apply bind_inv in H as [(truthy & s1 & _ & H)|(e & _ & [=])].
  apply bind_inv in H as [(n & s2 & _ & H)|(e & _ & [=])].
  apply bind_inv in H as [(u & s3 & _ & H)|(e & _ & [=])].
  by injection H as <- _.
Qed.

(** X8. The two writing handlers never let an exception escape, and
    their answers are fixed: [seed_demo_data] answers
    [{ok: true, mode: "demo"}] without a store and never fails there,
    and with a store [{ok: true, mode: "db"}] or status 500;
    [create_order] answers [{ok: true, order_id: ...}] or status 500. *)
Theorem writes_answer_ack_or_500 (py : interpreter) (db : option database)
    (payload : OrderPayload) :
  ((db = None /\ (seed_demo_data db).1 = Return (seed_reply "demo")) \/
   (db ≠ None /\
    ((seed_demo_data db).1 = Return (seed_reply "db") \/
     exists detail, (seed_demo_data db).1 = HTTPException 500 detail))) /\
  ((exists order_id, (create_order py db payload).1 = Return (order_reply order_id)) \/
   (exists detail, (create_order py db payload).1 = HTTPException 500 detail)).
Proof.
  split.
  - destruct db as [s|]; [right|left; by split]. split; [done|].
    unfold seed_demo_data, or_500. destruct (seed_body s) as [[v|e] s'] eqn:Hrun; cbn [fst].
    + left. by rewrite (seed_body_value _ _ _ Hrun).
    + right. by eexists.
  - unfold create_order. destruct (order_doc py payload) as [doc|e]; [|right; by eexists].
    destruct db as [s|]; [|left; by exists "demo-order-1"].
    unfold or_500, bind. destruct (create_document "order" doc s) as [[oid|e] s'];
      cbn [fst ret]; [left; by exists oid|right; by eexists].
Qed.

(** ** The diagnostics report *)

Lemma list_collection_names_through (s : database) :
  next_ok s ->
  list_collection_names s = (Ok (VStr <$> (map_to_list (collections s)).*1), settle s).
Proof. intros H. unfold list_collection_names. by rewrite store_call_through. Qed.

Lemma list_collection_names_fault (s : database) e fs :
  faults s = Some e :: fs -> list_collection_names s = (Raise e, with_faults fs s).
Proof. apply store_call_fault. Qed.

(** Reading a field through the assignments made after it. *)
Ltac lookup_inserts :=
  repeat (first [rewrite lookup_insert_eq | rewrite lookup_insert_ne by done]);
  try (vm_compute; reflexivity).

Lemma name_or_connected_cases (s : database) :
  match db_name s with
  | None => name_or_connected s = Ok (VStr "✅ Connected")
  | Some (Ok v) => name_or_connected s = Ok v
  | Some (Raise e) =>
      name_or_connected s
      = (if String.eqb (exn_class e) "AttributeError"
         then Ok (VStr "✅ Connected") else Raise e)
  end.
Proof.
  unfold name_or_connected, hasattr_name, getattr_name.
  destruct (db_name s) as [[v|e]|]; try reflexivity.
  by destruct (String.eqb (exn_class e) "AttributeError").
Qed.

(** X9. [test_database] classifies the store in its [database],
    [connection_status] and [collections] fields: demo mode without a
    store; ["❌ Error"] (and still "Not Connected", without a store call)
    when reading the handle's [name] raises anything but an
    [AttributeError]; otherwise (a readable name, no name, or a name
    whose reading raises [AttributeError], which [hasattr] takes for
    "no name") "Connected", with the first ten collection names when the
    listing goes through and with ["⚠️  Connected but Error"] and no names
    when it fails. The response always has the same six fields and never
    more than ten names. *)
Theorem diagnostics_report (environ : gmap string string) (db : option database) :
  exists r db' names,
    test_database environ db = (Return (VDict r), db') /\
    dom r = list_to_set ["backend"; "database"; "database_url"; "database_name";
                         "connection_status"; "collections"] /\
    r !! "backend" = Some (VStr "✅ Running") /\
    r !! "collections" = Some (VList names) /\
    (length names <= 10)%nat /\
    match db with
    | None =>
        r !! "database" = Some (VStr "ℹ️ Using demo mode (no database)") /\
        r !! "connection_status" = Some (VStr "Not Connected") /\
        names = [] /\ db' = None
    | Some s =>
        match db_name s with
        | Some (Raise e) =>
            if String.eqb (exn_class e) "AttributeError"
            then reports_connected s r names
            else reports_error s r names db'
        | _ => reports_connected s r names
        end
    end.
Proof.
  unfold test_database, probe. destruct db as [s|].
  2:{ eexists _, _, []. split; [reflexivity|]. repeat split; try (vm_compute; reflexivity).
      simpl. lia. }
  assert (Hconnected : forall shown,
    exists r db' names,
      (let '(response, db') :=
         match list_collection_names s with
         | (Ok names, s') =>
             (<["database" := VStr "✅ Connected & Working"]>
                (<["collections" := VList (take 10 names)]>
                   (<["connection_status" := VStr "Connected"]>
                      (<["database_name" := shown]>
                         (<["database_url" := set_marker environ "DATABASE_URL"]>
                            (<["database" := VStr "✅ Available"]>
                               (dict [("backend", VStr "✅ Running");
                                      ("database", VStr "❌ Not Available");
                                      ("database_url", VNone);
                                      ("database_name", VNone);
                                      ("connection_status", VStr "Not Connected");
                                      ("collections", VList [])])))))), Some s')
         | (Raise _, s') =>
             (<["database" := VStr "⚠️  Connected but Error"]>
                (<["connection_status" := VStr "Connected"]>
                   (<["database_name" := shown]>
                      (<["database_url" := set_marker environ "DATABASE_URL"]>
                         (<["database" := VStr "✅ Available"]>
                            (dict [("backend", VStr "✅ Running");
                                   ("database", VStr "❌ Not Available");
                                   ("database_url", VNone);
                                   ("database_name", VNone);
                                   ("connection_status", VStr "Not Connected");
                                   ("collections", VList [])]))))), Some s')
         end in
       (Return (VDict (<["database_name" := set_marker environ "DATABASE_NAME"]>
                         (<["database_url" := set_marker environ "DATABASE_URL"]> response))),
        db')) = (Return (VDict r), db') /\
      dom r = list_to_set ["backend"; "database"; "database_url"; "database_name";
                           "connection_status"; "collections"] /\
      r !! "backend" = Some (VStr "✅ Running") /\
      r !! "collections" = Some (VList names) /\
      (length names <= 10)%nat /\
      r !! "connection_status" = Some (VStr "Connected") /\
      ((next_ok s /\
        r !! "database" = Some (VStr "✅ Connected & Working") /\
        names = take 10 (VStr <$> (map_to_list (collections s)).*1))
       \/
       (~ next_ok s /\
        r !! "database" = Some (VStr "⚠️  Connected but Error") /\
        names = []))).
  { intros shown. destruct (next_ok_or_fault s) as [Hok|(e & fs & Hf)].
    - rewrite (list_collection_names_through _ Hok).
      eexists _, _, (take 10 (VStr <$> (map_to_list (collections s)).*1)).
      split; [reflexivity|].
      split; [rewrite !dom_insert_L; vm_compute; reflexivity|]. split; [lookup_inserts|].
      split; [lookup_inserts|].
      split; [rewrite length_take; lia|].
      split; [lookup_inserts|].
      left. split; [done|]. split; [|done].
      lookup_inserts.
    - rewrite (list_collection_names_fault _ _ _ Hf).
      eexists _, _, []. split; [reflexivity|].
      split; [rewrite !dom_insert_L; vm_compute; reflexivity|]. split; [lookup_inserts|].
      split; [lookup_inserts|]. split; [simpl; lia|].
      split; [lookup_inserts|].
      right. split; [intros H; unfold next_ok in H; by rewrite Hf in H|].
      split; [|done]. lookup_inserts. }
  assert (Herror : forall e, name_or_connected s = Raise e ->
    exists r db' names,
      (let '(response, db') :=
         match name_or_connected s with
         | Ok shown =>
             match list_collection_names s with
             | (Ok names, s') =>
                 (<["database" := VStr "✅ Connected & Working"]>
                    (<["collections" := VList (take 10 names)]>
                       (<["connection_status" := VStr "Connected"]>
                          (<["database_name" := shown]>
                             (<["database_url" := set_marker environ "DATABASE_URL"]>
                                (<["database" := VStr "✅ Available"]>
                                   (dict [("backend", VStr "✅ Running");
                                          ("database", VStr "❌ Not Available");
                                          ("database_url", VNone);
                                          ("database_name", VNone);
                                          ("connection_status", VStr "Not Connected");
                                          ("collections", VList [])])))))), Some s')
             | (Raise _, s') =>
                 (<["database" := VStr "⚠️  Connected but Error"]>
                    (<["connection_status" := VStr "Connected"]>
                       (<["database_name" := shown]>
                          (<["database_url" := set_marker environ "DATABASE_URL"]>
                             (<["database" := VStr "✅ Available"]>
                                (dict [("backend", VStr "✅ Running");
                                       ("database", VStr "❌ Not Available");
                                       ("database_url", VNone);
                                       ("database_name", VNone);
                                       ("connection_status", VStr "Not Connected");
                                       ("collections", VList [])]))))), Some s')
             end
         | Raise _ =>
             (<["database" := VStr "❌ Error"]>
                (<["database_url" := set_marker environ "DATABASE_URL"]>
                   (<["database" := VStr "✅ Available"]>
                      (dict [("backend", VStr "✅ Running");
                             ("database", VStr "❌ Not Available");
                             ("database_url", VNone);
                             ("database_name", VNone);
                             ("connection_status", VStr "Not Connected");
                             ("collections", VList [])]))), Some s)
         end in
       (Return (VDict (<["database_name" := set_marker environ "DATABASE_NAME"]>
                         (<["database_url" := set_marker environ "DATABASE_URL"]> response))),
        db')) = (Return (VDict r), db') /\
      dom r = list_to_set ["backend"; "database"; "database_url"; "database_name";
                           "connection_status"; "collections"] /\
      r !! "backend" = Some (VStr "✅ Running") /\
      r !! "collections" = Some (VList names) /\
      (length names <= 10)%nat /\
      reports_error s r names db').
  { intros e He. rewrite He. eexists _, _, []. split; [reflexivity|].
    split; [rewrite !dom_insert_L; vm_compute; reflexivity|]. split; [lookup_inserts|].
    split; [lookup_inserts|]. split; [simpl; lia|].
    unfold reports_error. split; [lookup_inserts|].
    split; [lookup_inserts|done]. }
  assert (Hshown : forall shown, name_or_connected s = Ok shown ->
    exists r db' names,
      (let '(response, db') :=
         match name_or_connected s with
         | Ok shown =>
             match list_collection_names s with
             | (Ok names, s') =>
                 (<["database" := VStr "✅ Connected & Working"]>
                    (<["collections" := VList (take 10 names)]>
                       (<["connection_status" := VStr "Connected"]>
                          (<["database_name" := shown]>
                             (<["database_url" := set_marker environ "DATABASE_URL"]>
                                (<["database" := VStr "✅ Available"]>
                                   (dict [("backend", VStr "✅ Running");
                                          ("database", VStr "❌ Not Available");
                                          ("database_url", VNone);
                                          ("database_name", VNone);
                                          ("connection_status", VStr "Not Connected");
                                          ("collections", VList [])])))))), Some s')
             | (Raise _, s') =>
                 (<["database" := VStr "⚠️  Connected but Error"]>
                    (<["connection_status" := VStr "Connected"]>
                       (<["database_name" := shown]>
                          (<["database_url" := set_marker environ "DATABASE_URL"]>
                             (<["database" := VStr "✅ Available"]>
                                (dict [("backend", VStr "✅ Running");
                                       ("database", VStr "❌ Not Available");
                                       ("database_url", VNone);
                                       ("database_name", VNone);
                                       ("connection_status", VStr "Not Connected");
                                       ("collections", VList [])]))))), Some s')
             end
         | Raise _ =>
             (<["database" := VStr "❌ Error"]>
                (<["database_url" := set_marker environ "DATABASE_URL"]>
                   (<["database" := VStr "✅ Available"]>
                      (dict [("backend", VStr "✅ Running");
                             ("database", VStr "❌ Not Available");
                             ("database_url", VNone);
                             ("database_name", VNone);
                             ("connection_status", VStr "Not Connected");
                             ("collections", VList [])]))), Some s)
         end in
       (Return (VDict (<["database_name" := set_marker environ "DATABASE_NAME"]>
                         (<["database_url" := set_marker environ "DATABASE_URL"]> response))),
        db')) = (Return (VDict r), db') /\
      dom r = list_to_set ["backend"; "database"; "database_url"; "database_name";
                           "connection_status"; "collections"] /\
      r !! "backend" = Some (VStr "✅ Running") /\
      r !! "collections" = Some (VList names) /\
      (length names <= 10)%nat /\
      reports_connected s r names).
  { intros shown Hs. rewrite Hs.
    destruct (Hconnected shown) as (r & db' & names & H & Hd & Hb & Hc & Hl & Hst & Hcases).
    exists r, db', names. by repeat (split; [done|]). }
  pose proof (name_or_connected_cases s) as Hname.
  destruct (db_name s) as [[v|e]|].
  - exact (Hshown _ Hname).
  - destruct (String.eqb (exn_class e) "AttributeError").
    + exact (Hshown _ Hname).
    + exact (Herror _ Hname).
  - exact (Hshown _ Hname).
Qed.

Example diagnostics_unreadable_name :
  exists r,
    test_database env_a (Some nameless_store) = (Return (VDict r), Some nameless_store) /\
    r !! "database" = Some (VStr "❌ Error") /\
    r !! "connection_status" = Some (VStr "Not Connected") /\
    r !! "database_name" = Some (VStr "✅ Set").
Proof. eexists. split; [reflexivity|]. repeat split; vm_compute; reflexivity. Qed.

(** A [name] whose reading raises [AttributeError] is no name for
    [hasattr]: the handler goes on and lists the collections. *)
Example diagnostics_attribute_error :
  exists r,
    test_database env_a (Some shy_store) = (Return (VDict r), Some (settle shy_store)) /\
    r !! "database" = Some (VStr "✅ Connected & Working") /\
    r !! "connection_status" = Some (VStr "Connected") /\
    r !! "collections" = Some (VList []).
Proof. eexists. split; [reflexivity|]. repeat split; vm_compute; reflexivity. Qed.

(** ** The handlers' documents against the declared schemas *)

Lemma both_invalid_r {A B C : Type} (f : A -> B -> C) (a : verdict A) :
  both f a Invalid = Invalid.
Proof. by destruct a. Qed.

Lemma validate_missing_required (m : list (string * field)) (d : document)
    (k : string) (f : field) :
  (k, f) ∈ m -> f_default f = None -> d !! k = None -> validate m d = Invalid.
Proof.
  intros Hin Hreq Hmiss. induction m as [|[k' f'] m IH]; [by apply elem_of_nil in Hin|].
  cbn [validate]. apply elem_of_cons in Hin as [[= <- <-]|Hin].
  - rewrite Hmiss. cbn [check_field]. by rewrite Hreq.
  - rewrite (IH Hin). apply both_invalid_r.
Qed.

(** X10. A payload item, dumped as [create_order] stores it, satisfies
    the declared [OrderItem] schema exactly when its price is at least 0
    (so not NaN) and its quantity at least 1; validation then returns it
    unchanged. Items with a quantity of 0 or less, which [create_order]
    accepts and charges as 1, are rejected by the schema. *)
Theorem order_item_schema (i : OrderItemPayload) :
  validate OrderItem (model_dump i)
  = (if (0 <=? price i)%float && (1 <=? quantity i) then Valid (model_dump i) else Invalid) /\
  (quantity i <= 0 ->
   validate OrderItem (model_dump i) = Invalid /\ converts (effective_quantity i) = true).
Proof.
  assert (Hval : validate OrderItem (model_dump i)
    = (if (0 <=? price i)%float && (1 <=? quantity i)
       then Valid (model_dump i) else Invalid)).
  { destruct (model_dump_fields i) as (Hid & Hname & Hprice & Hq & _).
    unfold OrderItem. cbn [validate]. rewrite Hid, Hname, Hprice, Hq.
    cbn [check_field check_typed f_type f_optional f_ge ge_float ge_int].
    change (nearest_float 0) with 0%float.
    destruct (0 <=? price i)%float, (1 <=? quantity i); reflexivity. }
  split; [exact Hval|]. intros Hq. split; [|by apply non_positive_quantity].
  rewrite Hval. replace (1 <=? quantity i) with false by (symmetry; apply Z.leb_gt; lia).
  by rewrite andb_false_r.
Qed.

(** X11. What the service writes does not satisfy the schemas declared
    for it: every order that [create_order] stores fails the [Order]
    schema, which requires a [subtotal] that the handler never sets, and
    every menu document of a seed fails the [MenuItem] schema, which
    requires a [category] that the demo items do not have. *)
Theorem written_documents_fail_schemas (py : interpreter) (s : database)
    (payload : OrderPayload) :
  payable (items payload) = true -> next_ok s ->
  (exists stored s' o,
     create_order py (Some s) payload = (o, Some s') /\
     docs s' "order" = (docs s "order" ++ [stored])%list /\
     stored !! "subtotal" = None /\
     validate Order stored = Invalid) /\
  Forall (fun d => d !! "category" = None /\ validate MenuItem d = Invalid)
    (seed_menu_docs (next_oid s)).
Proof.
  intros Hpay Hok. split.
  - destruct (order_doc_payable py payload Hpay)
      as (t & doc & _ & Hdoc & _ & _ & _ & _ & _ & _ & _ & _ & Hdom).
    exists (<["_id" := VOid (next_oid s)]> doc), (insert_one "order" doc (settle s)).2.
    eexists. split; [by apply create_order_insert_through|].
    split; [by rewrite docs_insert_one|].
    assert (Hsub : (<["_id" := VOid (next_oid s)]> doc) !! "subtotal" = None).
    { rewrite lookup_insert_ne by done. apply not_elem_of_dom. rewrite Hdom. by vm_compute. }
    split; [exact Hsub|].
    apply (validate_missing_required Order _ "subtotal" (Field TFloat false None (Some 0)));
      [|reflexivity|exact Hsub].
    unfold Order. do 4 right. left.
  - assert (Hitem : forall rest_id itm o,
              itm !! "category" = None ->
              (<["_id" := VOid o]> (seed_item rest_id itm)) !! "category" = None).
    { intros rest_id itm o H. unfold seed_item.
      by rewrite !lookup_insert_ne, lookup_delete_ne. }
    unfold seed_menu_docs, DEMO_MENU. cbn [zip zip_with fmap list_fmap].
    repeat constructor;
      try (apply (validate_missing_required MenuItem _ "category"
                    (Field TStr false None None));
           [unfold MenuItem; do 4 right; left|reflexivity|]);
      apply Hitem; vm_compute; reflexivity.
Qed.

Lemma written_documents_fail_schemas_witness :
  exists stored s' o,
    create_order sample_py (Some empty_store) sample_order = (o, Some s') /\
    docs s' "order" = [stored] /\
    validate Order stored = Invalid.
Proof.
  assert (Hpay : payable (items sample_order) = true) by (vm_compute; reflexivity).
  destruct (written_documents_fail_schemas sample_py empty_store sample_order Hpay I)
    as ((stored & s' & o & Hrun & Hdocs & _ & Hbad) & _).
  by exists stored, s', o.
Defined.

(** ** Browsing after a seed, and after a fallback *)

Lemma oid_str_not_demo (o : N) : oid_str o ≠ "demo-1".
Proof.
  intros H. assert (Ho : o = 1%N).
  { rewrite <- (oid_of_str_oid_str o). by rewrite H. }
  subst. discriminate H.
Qed.

Lemma seeded_store_wf_settled (s : database) :
  store_wf s -> store_wf (settle (seeded s)).
Proof. intros H. by apply store_wf_settle, store_wf_seeded. Qed.

(** X12. Seeding and browsing compose: after a seed that inserts, on a
    store that assigned every identity itself, [list_restaurants] returns
    exactly one restaurant, the demo restaurant's fields under a
    store-assigned [id], and [list_menu] for that [id] returns a menu in
    which every item points at it and every demo item appears with its
    name and price. *)
Theorem seed_then_browse (py : interpreter) (s : database) :
  store_wf s -> db_bool s = Ok true -> fault_free s -> docs s "restaurant" = [] ->
  exists s1 s2 s3 r rid menu,
    seed_demo_data (Some s) = (Return seed_ack, Some s1) /\
    list_restaurants py (Some s1) = (Return (as_list [r]), Some s2) /\
    r !! "id" = Some (VStr rid) /\
    (forall k, k ≠ "id" -> r !! k = DEMO_RESTAURANT !! k) /\
    list_menu py (Some s2) rid = (Return (as_list menu), Some s3) /\
    Forall (fun it => it !! "restaurant_id" = Some (VStr rid)) menu /\
    Forall (fun m => exists it, it ∈ menu /\
                       it !! "name" = m !! "name" /\ it !! "price" = m !! "price")
      DEMO_MENU.
Proof.
  intros Hwf Hb Hs Hnone.
  set (rid := oid_str (next_oid s)).
  assert (Hs1 : fault_free (seeded s)) by by apply seeded_fault_free.
  assert (Hs2 : fault_free (settle (seeded s))) by by apply fault_free_settle.
  destruct (list_menu_wf py (settle (seeded s)) rid (seeded_store_wf_settled _ Hwf)
              (fault_free_next_ok _ Hs2)) as (menu & Hmenu & Hrel & _ & _).
  change (selected (settle (seeded s)) "menuitem" [("restaurant_id", rid)])
    with (selected (seeded s) "menuitem" [("restaurant_id", rid)]) in Hrel.
  unfold rid in Hrel. rewrite selected_seeded in Hrel. fold rid in Hrel.
  exists (seeded s), (settle (seeded s)), (settle (settle (seeded s))).
  exists (<["id" := VStr rid]> seed_restaurant), rid, menu.
  split; [by apply seed_demo_data_fresh|].
  split.
  { unfold list_restaurants.
    rewrite (restaurants_from_store_through _ _ (fault_free_next_ok _ Hs1)).
    rewrite selected_all, seeded_restaurants, Hnone. cbn [app for_each].
    rewrite (remap_id_Some _ _ (VOid (next_oid s))) by by rewrite lookup_insert_eq.
    cbn [mbind result_bind py_str].
    replace (delete "_id" (<["_id" := VOid (next_oid s)]> seed_restaurant))
      with seed_restaurant by (vm_compute; reflexivity).
    reflexivity. }
  split; [by rewrite lookup_insert_eq|].
  split.
  { intros k Hk. rewrite lookup_insert_ne by done. unfold seed_restaurant.
    by rewrite lookup_delete_ne. }
  split; [exact Hmenu|].
  split.
  { apply Forall2_app_inv_l in Hrel as (older & fresh & Hold & Hfresh & ->).
    apply Forall_app. split.
    - clear Hfresh Hmenu. apply Forall_forall. intros it Hit.
      apply list_elem_of_lookup in Hit as [n Hn].
      destruct (Forall2_lookup_r _ _ _ _ _ Hold Hn) as (d & Hd & (o & Ho & ->)).
      assert (Hsel : d ∈ selected s "menuitem" [("restaurant_id", oid_str (next_oid s))])
        by (apply list_elem_of_lookup; by exists n).
      apply selected_spec in Hsel as [_ Hsel].
      by rewrite lookup_insert_ne, lookup_delete_ne.
    - unfold DEMO_MENU in Hfresh. cbn [zip zip_with fmap list_fmap] in Hfresh.
      inversion Hfresh as [|d1 a l1 f1 Ha Hf1]; subst.
      inversion Hf1 as [|d2 b l2 f2 Hb' Hf2]; subst.
      inversion Hf2 as [|d3 c l3 f3 Hc Hf3]; subst.
      inversion Hf3; subst.
      apply fresh_item in Ha as (_ & Ha & _).
      apply fresh_item in Hb' as (_ & Hb' & _).
      apply fresh_item in Hc as (_ & Hc & _).
      by repeat constructor. }
  apply Forall2_app_inv_l in Hrel as (older & fresh & _ & Hfresh & ->).
  unfold DEMO_MENU in *. cbn [zip zip_with fmap list_fmap] in Hfresh.
  inversion Hfresh as [|d1 a l1 f1 Ha Hf1]; subst.
  inversion Hf1 as [|d2 b l2 f2 Hb' Hf2]; subst.
  inversion Hf2 as [|d3 c l3 f3 Hc Hf3]; subst.
  inversion Hf3; subst.
  apply fresh_item in Ha as (_ & _ & Ha).
  apply fresh_item in Hb' as (_ & _ & Hb').
  apply fresh_item in Hc as (_ & _ & Hc).
  constructor; [|constructor; [|constructor; [|constructor]]].
  - exists a. split; [|split; by apply Ha].
    apply elem_of_app; right. apply elem_of_cons; by left.
  - exists b. split; [|split; by apply Hb'].
    apply elem_of_app; right. do 1 (apply elem_of_cons; right). apply elem_of_cons; by left.
  - exists c. split; [|split; by apply Hc].
    apply elem_of_app; right. do 2 (apply elem_of_cons; right). apply elem_of_cons; by left.
Qed.

Lemma seed_then_browse_witness :
  exists s1 s2 s3 r rid menu,
    seed_demo_data (Some empty_store) = (Return seed_ack, Some s1) /\
    list_restaurants sample_py (Some s1) = (Return (as_list [r]), Some s2) /\
    r !! "id" = Some (VStr rid) /\
    r !! "name" = Some (VStr "SnackSprint Diner") /\
    list_menu sample_py (Some s2) rid = (Return (as_list menu), Some s3) /\
    Forall (fun it => it !! "restaurant_id" = Some (VStr rid)) menu.
Proof.
  assert (Hfree : fault_free empty_store) by constructor.
  destruct (seed_then_browse sample_py empty_store store_wf_empty eq_refl Hfree eq_refl)
    as (s1 & s2 & s3 & r & rid & menu & Hseed & Hlist & Hid & Hfields & Hmenu & Hall & _).
  exists s1, s2, s3, r, rid, menu. repeat split; try done.
  by rewrite Hfields.
Defined.

(** X13. The silent fallback and the store's identities do not fit
    together: when the query of [list_restaurants] fails, the caller gets
    the demo restaurant with id ["demo-1"], but once the store answers
    again [list_menu("demo-1")] returns an empty menu unless some stored
    item happens to carry that [restaurant_id]; the items that a seed
    stores never do. *)
Theorem fallback_restaurant_without_menu (py : interpreter) (s : database) e fs :
  faults s = Some e :: fs -> next_ok (with_faults fs s) ->
  (forall d, d ∈ docs s "menuitem" -> d !! "restaurant_id" ≠ Some (VStr "demo-1")) ->
  exists s1 s2 r,
    list_restaurants py (Some s) = (Return (as_list [r]), Some s1) /\
    r !! "id" = Some (VStr "demo-1") /\
    list_menu py (Some s1) "demo-1" = (Return (as_list []), Some s2) /\
    (forall o, Forall (fun d => d !! "restaurant_id" ≠ Some (VStr "demo-1"))
                 (seed_menu_docs o)).
Proof.
  intros Hf Hok Hnone. exists (with_faults fs s), (settle (with_faults fs s)), DEMO_RESTAURANT.
  split.
  { eapply list_restaurants_fallback. by apply restaurants_from_store_fault. }
  split; [by vm_compute|].
  split.
  { unfold list_menu. rewrite (menu_from_store_through _ _ _ Hok).
    by rewrite (selected_none (with_faults fs s) "menuitem" "demo-1" Hnone). }
  intros o. unfold seed_menu_docs, DEMO_MENU. cbn [zip zip_with fmap list_fmap].
  repeat constructor; intros H;
    match type of H with
    | ?d !! _ = _ =>
        assert (Hr : d !! "restaurant_id" = Some (VStr (oid_str o)))
          by by eapply seed_item_fields
    end;
    rewrite Hr in H; injection H as H; by apply oid_str_not_demo in H.
Qed.

Lemma fallback_restaurant_without_menu_witness :
  exists s1 s2 r,
    list_restaurants sample_py (Some unreachable_store) = (Return (as_list [r]), Some s1) /\
    r !! "id" = Some (VStr "demo-1") /\
    list_menu sample_py (Some s1) "demo-1" = (Return (as_list []), Some s2).
Proof.
  destruct (fallback_restaurant_without_menu sample_py unreachable_store _ _ eq_refl I)
    as (s1 & s2 & r & Hr & Hid & Hm & _).
  { intros d Hd. vm_compute in Hd. by apply elem_of_nil in Hd. }
  by exists s1, s2, r.
Defined.

(** X14. [create_order] trusts the payload: in store-backed mode, when
    the insert goes through, its answer and the document it stores depend
    on the payload and the next identity only, never on what is stored;
    prices and ids are not checked against the stored menu, and the
    [restaurant_id] need not exist. *)
Theorem create_order_trusts_payload (py : interpreter) (s1 s2 : database)
    (payload : OrderPayload) :
  next_oid s1 = next_oid s2 -> next_ok s1 -> next_ok s2 ->
  exists o s1' s2' new,
    create_order py (Some s1) payload = (o, Some s1') /\
    create_order py (Some s2) payload = (o, Some s2') /\
    docs s1' "order" = (docs s1 "order" ++ new)%list /\
    docs s2' "order" = (docs s2 "order" ++ new)%list /\
    (status o = 200 <-> payable (items payload) = true).
Proof.
  intros Hnext Hok1 Hok2.
  destruct (order_doc_cases py payload) as [[Hpay [doc Hdoc]]|[Hpay Hdoc]].
  - exists (Return (order_reply (oid_str (next_oid s1)))),
      (insert_one "order" doc (settle s1)).2, (insert_one "order" doc (settle s2)).2,
      [<["_id" := VOid (next_oid s1)]> doc].
    split; [by apply create_order_insert_through|].
    split; [rewrite Hnext; by apply create_order_insert_through|].
    split; [by rewrite docs_insert_one|].
    split.
    { rewrite docs_insert_one, docs_settle. cbn [next_oid settle with_faults].
      by rewrite Hnext. }
    by split.
  - eexists _, _, _, []. split; [by apply create_order_raise|].
    split; [by apply create_order_raise|]. rewrite !app_nil_r.
    split; [done|]. split; [done|]. split; [discriminate|]. intros H. congruence.
Qed.

Lemma create_order_trusts_payload_witness :
  exists o s1' s2' new,
    create_order sample_py (Some empty_store) sample_order = (o, Some s1') /\
    create_order sample_py
      (Some (Database (Ok true) None (collections stocked_store) 0 [])) sample_order
    = (o, Some s2') /\
    docs s1' "order" = new /\
    status o = 200.
Proof.
  destruct (create_order_trusts_payload sample_py empty_store
              (Database (Ok true) None (collections stocked_store) 0 []) sample_order
              eq_refl I I)
    as (o & s1' & s2' & new & H1 & H2 & Hd1 & _ & Hstatus).
  exists o, s1', s2', new. split; [exact H1|]. split; [exact H2|].
  split; [exact Hd1|]. apply Hstatus. vm_compute. reflexivity.
Defined.
